(** * Sleep-or-cram: the recommendation engine of [src/sleep-or-cram.tsx]

    A shallow embedding of [calculateRecommendation] and [parseTime], the two
    functions of the React component [SleepOrCram] that compute the
    recommendation, and of the handlers and look-up functions around them,
    followed by the properties the specification states about the engine
    and by further properties of the engine and of the component.

    Numbers.  A JavaScript [number] is an IEEE-754 binary64 value, and the
    arithmetic operators round to nearest, ties to even.  Rocq's primitive
    [float] is the same format with the same rounding, so the embedding
    computes what the program computes, rounding errors, signed zeros and
    [NaN] included.  A decimal literal such as [0.7] denotes, here as in
    JavaScript, the binary64 value nearest to it.

    Proofs.  What holds whatever the numbers are is proved by cases on the
    tests of the program.  What rests on the order of binary64 numbers goes
    through its specification in the Standard Library.  What rests on the
    rounding of the arithmetic is evaluated: on given inputs, or on all
    1440 x 1440 pairs of clock times. *)

From Stdlib Require Import Floats ZArith Uint63 Bool.
From Stdlib Require Import String Ascii List DecimalString Lia.
Import ListNotations.

Set Warnings "-inexact-float".

Local Open Scope float_scope.

(** ** The order of numbers

    JavaScript's [<], [<=], [>] and [>=] are the IEEE comparisons: every
    comparison with [NaN] is false, and the two zeros are equal. *)

Notation "x >=? y" := (PrimFloat.leb y x)
  (at level 70, no associativity) : float_scope.
Notation "x >? y" := (PrimFloat.ltb y x)
  (at level 70, no associativity) : float_scope.

Definition fle (x y : float) : Prop := (x <=? y) = true.
Definition flt (x y : float) : Prop := (x <? y) = true.
Definition feq (x y : float) : Prop := (x =? y) = true.

Notation "x <= y" := (fle x y) : float_scope.
Notation "x < y" := (flt x y) : float_scope.
Notation "x == y" := (feq x y) (at level 70, no associativity) : float_scope.
Notation "x <= y < z" := (fle x y /\ flt y z) : float_scope.
Notation "x <= y <= z" := (fle x y /\ fle y z) : float_scope.
Notation "x < y < z" := (flt x y /\ flt y z) : float_scope.

(** ** [Math]

    The functions of [Math] the engine calls, after ECMAScript 2015,
    sections 20.2.2.16 ([floor]), 20.2.2.24 ([max]), 20.2.2.25 ([min]) and
    20.2.2.28 ([round]).

    [floor] and [round] work on the integer mantissa of their argument.
    For a finite [x] other than zero, [frshiftexp x] is a fraction [f] with
    [0.5 <= |f| < 1] and an exponent [ex], biased by 2101, and
    [normfr_mantissa f] is the 53-bit integer [m = |f| * 2^53], so that
    [|x| = m * 2^(ex - 2154)].  From [ex = 2154] on, [x] is an integer.
    Below, with [k = 2154 - ex], the integer part of [|x|] is [m >> k]. *)

(** The exponent [frshiftexp] gives to the numbers in [2^52, 2^53): the
    bias of the library plus the precision, 2101 + 53. *)
Definition integralExponent : int :=
  Eval cbv in Uint63.of_Z (FloatOps.shift + FloatOps.prec).

(** The float of a natural number below [2^53], which is exact. *)
Definition ofZ (z : Z) : float := of_uint63 (Uint63.of_Z z).

Definition Math_floor (x : float) : float :=
  if is_nan x || is_infinity x || PrimFloat.is_zero x then x
  else
    let (f, ex) := frshiftexp x in
    if (integralExponent <=? ex)%uint63 then x
    else
      let k := (integralExponent - ex)%uint63 in
      let m := normfr_mantissa f in
      let whole := (m >> k)%uint63 in
      if ((whole << k) =? m)%uint63 then x
      else if x <? 0 then - of_uint63 (whole + 1)
      else of_uint63 whole.

(** The nearest integer; of two equally near, the one towards +infinity.  A
    negative number that rounds to zero gives the negative zero.  With
    [k >= 63] the magnitude is below [2^-10]. *)
Definition Math_round (x : float) : float :=
  if is_nan x || is_infinity x || PrimFloat.is_zero x then x
  else
    let (f, ex) := frshiftexp x in
    if (integralExponent <=? ex)%uint63 then x
    else
      let k := (integralExponent - ex)%uint63 in
      if (63 <=? k)%uint63 then (if x <? 0 then -0 else 0)
      else
        let m := normfr_mantissa f in
        let whole := (m >> k)%uint63 in
        let rest := (m - (whole << k))%uint63 in
        let half := (1 << (k - 1))%uint63 in
        if x <? 0 then
          if (rest <=? half)%uint63 then - of_uint63 whole
          else - of_uint63 (whole + 1)
        else
          if (half <=? rest)%uint63 then of_uint63 (whole + 1)
          else of_uint63 whole.

(** [NaN] if an argument is [NaN]; the positive zero is larger than the
    negative one. *)
Definition Math_max (x y : float) : float :=
  if is_nan x || is_nan y then nan
  else if x <? y then y
  else if y <? x then x
  else if get_sign x then y else x.

Definition Math_min (x y : float) : float :=
  if is_nan x || is_nan y then nan
  else if x <? y then x
  else if y <? x then y
  else if get_sign x then x else y.

(** ** Strings: [split], [Number] and number-to-string conversion *)

(** [String.prototype.split] with a one-character separator. *)
Fixpoint split (sep : ascii) (s : string) : list string :=
  match s with
  | EmptyString => [EmptyString]
  | String c rest =>
      if Ascii.eqb c sep then EmptyString :: split sep rest
      else match split sep rest with
           | [] => [String c EmptyString]
           | piece :: pieces => String c piece :: pieces
           end
  end.

Definition digit (c : ascii) : option Z :=
  let n := Z.of_N (N_of_ascii c) in
  if ((48 <=? n) && (n <=? 57))%Z then Some (n - 48)%Z else None.

Fixpoint digits (acc : Z) (s : string) : option Z :=
  match s with
  | EmptyString => Some acc
  | String c rest =>
      match digit c with
      | Some d => digits (10 * acc + d) rest
      | None => None
      end
  end.

(** [Number(s)] on a string, for the strings that are a run of at most
    fifteen decimal digits: the number is their value, which binary64 holds
    exactly, and the empty string is 0.  Every other string is [None]: for
    most of them JavaScript answers [NaN]; longer runs of digits, signs,
    fractions, exponents, surrounding blanks and hexadecimal literals, which
    JavaScript accepts, are outside the part modelled, and no [HH:MM] string
    has them. *)
Definition Number (s : string) : option float :=
  if (String.length s <=? 15)%nat then option_map ofZ (digits 0 s) else None.

(** The integer an integral number below [2^63] in magnitude stands for. *)
Definition toZ (x : float) : Z :=
  match Prim2SF x with
  | S754_finite negative m e =>
      let magnitude := Z.shiftl (Zpos m) e in
      if negative then (- magnitude)%Z else magnitude
  | _ => 0%Z
  end.

(** The conversion of a number to a string by a template literal, for the
    numbers the engine prints: an integer, or the binary64 value nearest to
    a multiple of 1/10, below [2^53] in magnitude.  It prints the decimal
    with at most one fractional digit that is nearest to the number; for
    those numbers this is the shortest decimal that reads back as the same
    binary64 value, which is what JavaScript prints.  Every value the
    templates interpolate is a [Math.floor], a [Math.round] or a
    [Math.floor (x * 10) / 10]. *)
Definition toString (x : float) : string :=
  let tenths := toZ (Math_round (abs x * 10)) in
  let whole := NilZero.string_of_int (Z.to_int (tenths / 10)%Z) in
  let frac := (tenths mod 10)%Z in
  let sign := if x <? 0 then "-"%string else ""%string in
  let fraction :=
    if (frac =? 0)%Z then ""%string
    else ("." ++ NilZero.string_of_int (Z.to_int frac))%string in
  (sign ++ whole ++ fraction)%string.

(** ** [parseTime] (source lines 172-175) *)

Definition parseTime (timeStr : string) : option float :=
  match map Number (split ":" timeStr) with
  | Some hours :: Some minutes :: _ => Some (hours + minutes / 60)
  | _ => None
  end.

(** A 24-hour wall-clock time [HH:MM], the value of an [<input type="time">]:
    two digits below 24, a colon, two digits below 60. *)
Definition isHHMM (s : string) : bool :=
  match s with
  | String h1 (String h0 (String c (String m1 (String m0 EmptyString)))) =>
      match digit h1, digit h0, digit m1, digit m0 with
      | Some a, Some b, Some d, Some e =>
          Ascii.eqb c ":" && (10 * a + b <? 24)%Z && (10 * d + e <? 60)%Z
      | _, _, _, _ => false
      end
  | _ => false
  end.

(** ** Data: the quiz answers, the [Result] interface, the component state *)

Record QuizAnswers : Type := { q1 : float; q2 : float; q3 : float }.

(** The union type ['sleep' | 'strategic-cram']. *)
Inductive Decision : Type := sleep | strategic_cram.

(** [interface Result] (source lines 4-19). *)
Module Result.
Record t : Type := mk {
  decision : Decision;
  reasoning : string;
  projectedBoost : float;
  actionPlan : list string;
  scienceNote : string;
  availableHours : float;
  effectiveStudyHours : float;
  cognitiveState : float;
  adjustedConfidence : float;
  boostS1 : float;
  boostS2 : float;
  sleepBenefitS1 : float;
  cramBenefitS2 : float;
  sleepBenefitS2 : float
}.
End Result.

(** The [useState] cells of the component (source lines 22-28). *)
Record State : Type := {
  step : string;
  examTime : string;
  currentTime : string;
  confidence : float;
  hoursStudied : float;
  quizAnswers : QuizAnswers;
  result : option Result.t
}.

(** The state a freshly mounted component starts from (the arguments of the
    [useState] calls). *)
Definition initialState : State :=
  {| step := "input"; examTime := "09:00"; currentTime := "22:00";
     confidence := 50; hoursStudied := 0;
     quizAnswers := {| q1 := 0; q2 := 0; q3 := 0 |};
     result := None |}.

Definition setStep (s : string) (st : State) : State :=
  {| step := s; examTime := examTime st; currentTime := currentTime st;
     confidence := confidence st; hoursStudied := hoursStudied st;
     quizAnswers := quizAnswers st; result := result st |}.

Definition setResult (r : option Result.t) (st : State) : State :=
  {| step := step st; examTime := examTime st; currentTime := currentTime st;
     confidence := confidence st; hoursStudied := hoursStudied st;
     quizAnswers := quizAnswers st; result := r |}.

(** ** The body of [calculateRecommendation] (source lines 30-167)

    The section variables are what the closure reads: the two parsed clock
    times and three cells of the state, under the names they have in the
    source (inside the section these names stand for the values, not for
    the projections of [State]).  Each [const] of the source is a
    definition of the same name; a definition mentions the variables it
    depends on and, when the section closes, takes exactly those as
    arguments, in the order declared here. *)

Section Body.

Variables now exam : float.
Variable hoursStudied : float.
Variable confidence : float.
Variable quizAnswers : QuizAnswers.

Definition finalConfidence : float :=
  Math_round
    (0.7 * (q1 quizAnswers + q2 quizAnswers + q3 quizAnswers)
     + 0.3 * confidence).

Definition availableHours : float :=
  let availableHours := exam - now in
  if availableHours <? 0 then availableHours + 24 else availableHours.

Definition minSleepNeeded : float := 6.
Definition optimalSleep : float := 8.
Definition maxProductiveStudy : float := 3.

Definition isLateNight : bool := (now >=? 22) || (now <=? 4).

Definition fatigueFactor : float :=
  if hoursStudied >=? 4 then 0.4
  else if hoursStudied >=? 2.5 then 0.6
  else 1.0.

Definition timeFactor : float := if isLateNight then 0.5 else 1.0.

Definition cognitiveStateFactor : float := fatigueFactor * timeFactor.

Definition highConfidence : bool := finalConfidence >=? 75.
Definition lowConfidence : bool := finalConfidence <=? 35.

Definition getCramBenefit (hours : float) : float :=
  let base := 0 in
  let base := if hours >=? 1 then base + 20 else base in
  let base := if hours >=? 2 then base + 12 else base in
  let base := if hours >=? 3 then base + 8 else base in
  let base := base * cognitiveStateFactor in
  if lowConfidence then base * 1.25
  else if highConfidence then base * 0.75
  else base.

Definition getSleepBenefit (sleepHours : float) : float :=
  if sleepHours >=? optimalSleep then 25
  else if sleepHours >=? minSleepNeeded then 15
  else if sleepHours >=? 4 then 5
  else if sleepHours >? 0 then -25
  else -40.

(** Scenario 1: max sleep. *)
Definition sleepHoursS1 : float := Math_max 0 (availableHours - 1).
Definition boostS1 : float := getSleepBenefit sleepHoursS1.

(** Scenario 2: strategic split. *)
Definition studyHoursS2 : float :=
  Math_min maxProductiveStudy
           (Math_max 0 (availableHours - minSleepNeeded - 1)).
Definition sleepHoursS2 : float := Math_max 0 (availableHours - studyHoursS2 - 1).

Definition cramBenefitS2 : float := getCramBenefit studyHoursS2.
Definition sleepBenefitS2 : float := getSleepBenefit sleepHoursS2.
Definition boostS2 : float := cramBenefitS2 + sleepBenefitS2.

(** The condition of the [if] of line 113. *)
Definition scenario1Wins : bool :=
  (availableHours <? 5) || ((boostS1 >? boostS2) && (sleepHoursS1 >=? 6)).

(** The five variables the two branches assign. *)
Record Verdict : Type := {
  decision : Decision;
  reasoning : string;
  projectedBoost : float;
  actionPlan : list string;
  scienceNote : string
}.

Definition verdict : Verdict :=
  if scenario1Wins then
    if availableHours <? 5 then
      {| decision := sleep;
         projectedBoost := Math_max 0 boostS1;
         reasoning := "You have very limited time. Sleep deprivation will hurt you more than cramming will help.";
         actionPlan :=
           [ "Go to sleep right now.";
             "Focus on getting maximum rest.";
             "Quick review of key formulas/concepts when you wake up." ]%string;
         scienceNote := "With less than 5 hours, your brain needs rest more than new information. Sleep consolidates what you already know." |}
    else
      {| decision := sleep;
         projectedBoost := Math_max 0 boostS1;
         reasoning := "Maximizing sleep yields the highest projected score boost. Your knowledge is best consolidated now.";
         actionPlan :=
           [ "Sleep " ++ toString (Math_floor sleepHoursS1) ++ " hours minimum.";
             "Limit screen time 30 mins before bed.";
             "Light, focused review in the morning." ]%string;
         scienceNote :=
           ("The consolidation benefit of " ++ toString (Math_floor sleepHoursS1)
            ++ " hours of sleep (Boost: +"
            ++ toString (Math_round (getSleepBenefit sleepHoursS1))
            ++ "%) outweighs the minimal gain from more studying.")%string |}
  else
    let finalStudy := Math_floor (studyHoursS2 * 10) / 10 in
    let finalSleep := Math_floor (sleepHoursS2 * 10) / 10 in
    {| decision := strategic_cram;
       projectedBoost := Math_max 0 boostS2;
       reasoning := "The Strategic Split maximizes your net gain by balancing crucial rest and targeted study.";
       actionPlan :=
         [ "Study for " ++ toString finalStudy
             ++ " hours. Focus ONLY on high-value/low-confidence topics.";
           "Use active recall (practice problems, flashcards), not just reading.";
           "Sleep " ++ toString finalSleep ++ " hours minimum.";
           "Wake up early for quick review and proper breakfast." ]%string;
       scienceNote :=
         ("Your current cognitive state is at "
          ++ toString (Math_round (cognitiveStateFactor * 100))
          ++ "%. Focused encoding now (Boost: +"
          ++ toString (Math_round cramBenefitS2)
          ++ "%) combined with consolidation (Boost: +"
          ++ toString (Math_round sleepBenefitS2)
          ++ "%) provides the optimal strategy.")%string |}.

(** The object handed to [setResult] (source lines 152-167). *)
Definition resultObject : Result.t :=
  {| Result.decision := decision verdict;
     Result.reasoning := reasoning verdict;
     Result.projectedBoost := Math_round (projectedBoost verdict);
     Result.actionPlan := actionPlan verdict;
     Result.scienceNote := scienceNote verdict;
     Result.availableHours := Math_floor (availableHours * 10) / 10;
     Result.effectiveStudyHours :=
       Math_floor
         ((match decision verdict with
           | strategic_cram => studyHoursS2
           | sleep => 0
           end) * 10) / 10;
     Result.cognitiveState := Math_round (cognitiveStateFactor * 100);
     Result.adjustedConfidence := finalConfidence;
     Result.boostS1 := Math_round boostS1;
     Result.boostS2 := Math_round boostS2;
     Result.sleepBenefitS1 := Math_round (getSleepBenefit sleepHoursS1);
     Result.cramBenefitS2 := Math_round cramBenefitS2;
     Result.sleepBenefitS2 := Math_round sleepBenefitS2 |}.

End Body.

(** ** [calculateRecommendation] (source lines 30-170)

    It reads the state, parses the two clock times, hands the result object
    to [setResult] and moves to the result step.  [None] when a clock time
    does not parse. *)
Definition calculateRecommendation (st : State) : option State :=
  match parseTime (currentTime st), parseTime (examTime st) with
  | Some now, Some exam =>
      let r := resultObject now exam (hoursStudied st) (confidence st)
                            (quizAnswers st) in
      Some (setStep "result" (setResult (Some r) st))
  | _, _ => None
  end.

(** The documented domain of the engine: two [HH:MM] clock times, a
    non-negative number of hours studied, a slider value between 0 and 100
    and three quiz answers among 0, 33, 67 and 100. *)
Definition isQuizAnswer (q : float) : bool :=
  (q =? 0) || (q =? 33) || (q =? 67) || (q =? 100).

Definition wellFormed (st : State) : bool :=
  isHHMM (currentTime st) && isHHMM (examTime st)
  && (hoursStudied st >=? 0)
  && (confidence st >=? 0) && (confidence st <=? 100)
  && isQuizAnswer (q1 (quizAnswers st))
  && isQuizAnswer (q2 (quizAnswers st))
  && isQuizAnswer (q3 (quizAnswers st)).

(** [Runs st now exam r]: on the state [st] the call parses the current
    time to [now] and the exam time to [exam], stores the result object [r]
    and shows the result step, leaving the other cells as they were. *)
Definition Runs (st : State) (now exam : float) (r : Result.t) : Prop :=
  parseTime (currentTime st) = Some now
  /\ parseTime (examTime st) = Some exam
  /\ r = resultObject now exam (hoursStudied st) (confidence st) (quizAnswers st)
  /\ calculateRecommendation st = Some (setStep "result" (setResult (Some r) st)).

(** ** The clock times of a day

    [parseTime] maps the 1440 [HH:MM] strings to the numbers [clocks]
    lists.  A property of the engine that rests on the rounding of binary64
    arithmetic is checked on every pair of them. *)

(** The time of day, in hours, of hour [h] and minute [m], as [parseTime]
    computes it. *)
Definition clock (h m : Z) : float := ofZ h + ofZ m / 60.

Definition clocks : list float :=
  flat_map (fun h => map (fun m => clock (Z.of_nat h) (Z.of_nat m)) (seq 0 60))
           (seq 0 24).

Definition forallClocks (check : float -> float -> bool) : bool :=
  forallb (fun now => forallb (check now) clocks) clocks.

Definition availableHoursInDay (now exam : float) : bool :=
  (0 <=? availableHours now exam) && (availableHours now exam <? 24).

Definition studyHoursTruncatedInRange (now exam : float) : bool :=
  let finalStudy := Math_floor (studyHoursS2 now exam * 10) / 10 in
  (0 <=? finalStudy) && (finalStudy <=? 3).

(** ** Sample inputs *)

(** A state with the given inputs, before any recommendation was made. *)
Definition inputState (current exam : string)
    (studied slider a1 a2 a3 : float) : State :=
  {| step := "quiz"; examTime := exam; currentTime := current;
     confidence := slider; hoursStudied := studied;
     quizAnswers := {| q1 := a1; q2 := a2; q3 := a3 |};
     result := None |}.

(** Four hours before the exam. *)
Definition shortNight : State := inputState "05:00" "09:00" 0 50 0 0 0.

(** The end-to-end example: eleven hours left, nothing studied, slider at
    50, every quiz answer 0. *)
Definition lateEvening : State := inputState "22:00" "09:00" 0 50 0 0 0.

(** Nine hours left, late at night, after five hours of study. *)
Definition tiredNight : State := inputState "23:00" "08:00" 5 50 33 33 0.

(** Eight and a half hours left at noon. *)
Definition afternoon : State := inputState "12:00" "20:30" 0 50 33 33 0.

(** Every quiz answer 100 and the slider at 100. *)
Definition fullMarks : State := inputState "22:00" "09:00" 0 100 100 100 100.

(** The state after one call on [lateEvening]: it shows the result step and
    holds a result. *)
Definition lateEveningResult : State :=
  match calculateRecommendation lateEvening with
  | Some st => st
  | None => lateEvening
  end.

(** Quiz answers that blend, with the slider at 50, to a low (15), a
    neutral (61) and a high (155) final confidence. *)
Definition lowAnswers : QuizAnswers := {| q1 := 0; q2 := 0; q3 := 0 |}.
Definition neutralAnswers : QuizAnswers := {| q1 := 33; q2 := 33; q3 := 0 |}.
Definition highAnswers : QuizAnswers := {| q1 := 100; q2 := 67; q3 := 33 |}.

(** The cells a call of [calculateRecommendation] reads: the five inputs of
    the engine. *)
Definition sameInputs (st1 st2 : State) : Prop :=
  currentTime st1 = currentTime st2
  /\ examTime st1 = examTime st2
  /\ hoursStudied st1 = hoursStudied st2
  /\ confidence st1 = confidence st2
  /\ quizAnswers st1 = quizAnswers st2.

(** The blend the engine would compute if it averaged the quiz answers. *)
Definition averagedConfidence (confidence : float)
    (quizAnswers : QuizAnswers) : float :=
  Math_round
    (0.7 * ((q1 quizAnswers + q2 quizAnswers + q3 quizAnswers) / 3)
     + 0.3 * confidence).

(** * The rest of the component

    What follows embeds the code around the engine: the handlers of the
    three screens, [resetApp], the three look-up functions of the result
    screen and the line of the result screen that compares the two boosts.
    It also fixes the meaning of an [HH:MM] string in minutes, against which
    the arithmetic of the engine is checked. *)

(** ** Minutes of the day *)

Definition digitValue (c : ascii) : Z :=
  match digit c with Some d => d | None => 0%Z end.

(** The minute of the day an [HH:MM] string names: 60 times the hour plus
    the minute. *)
Definition minuteOfDay (s : string) : Z :=
  match s with
  | String h1 (String h0 (String _ (String m1 (String m0 _)))) =>
      (60 * (10 * digitValue h1 + digitValue h0)
       + (10 * digitValue m1 + digitValue m0))%Z
  | _ => 0%Z
  end.

(** The minutes from minute [i] of a day to the next minute [j], the same
    day or the day after; 0 when they are equal. *)
Definition minutesBetween (i j : int) : int :=
  (if j <? i then j + 1440 - i else j - i)%uint63.

(** The 1440 clock times with their minute of the day. *)
Definition minuteTable : list (int * float) :=
  flat_map
    (fun h =>
       map (fun m => (Uint63.of_Z (60 * Z.of_nat h + Z.of_nat m),
                      clock (Z.of_nat h) (Z.of_nat m)))
           (seq 0 60))
    (seq 0 24).

Definition forallMinutes (check : int * float -> int * float -> bool) : bool :=
  forallb (fun a => forallb (check a) minuteTable) minuteTable.

(** The available time, in minutes, is the exact one. *)
Definition minutesExact (a b : int * float) : bool :=
  PrimFloat.Leibniz.eqb
    (Math_round (availableHours (snd a) (snd b) * 60))
    (of_uint63 (minutesBetween (fst a) (fst b))).

(** The available time is 0 for equal clock times only. *)
Definition zeroWhenEqual (a b : int * float) : bool :=
  Bool.eqb (PrimFloat.Leibniz.eqb (availableHours (snd a) (snd b)) 0)
           (fst a =? fst b)%uint63.

(** The tenths of an hour the result shows are those of the exact time, or
    one less when the exact time is a whole number of tenths. *)
Definition shownTenths (a b : int * float) : bool :=
  let shown := Math_floor (availableHours (snd a) (snd b) * 10) in
  let minutes := minutesBetween (fst a) (fst b) in
  let tenths := (minutes / 6)%uint63 in
  PrimFloat.Leibniz.eqb shown (of_uint63 tenths)
  || ((1 <=? tenths)%uint63
      && PrimFloat.Leibniz.eqb shown (of_uint63 (tenths - 1))
      && (minutes mod 6 =? 0)%uint63).

(** A test of the engine and the exact comparison of the minutes with a
    breakpoint agree, unless the minutes are the breakpoint. *)
Definition agreesOff (test : bool) (minutes breakpoint : int) : bool :=
  (minutes =? breakpoint)%uint63 || Bool.eqb test (breakpoint <? minutes)%uint63.

Definition testsOffBreakpoints (a b : int * float) : bool :=
  let minutes := minutesBetween (fst a) (fst b) in
  let now := snd a in
  let exam := snd b in
  agreesOff (negb (availableHours now exam <? 5)) minutes 300
  && agreesOff (sleepHoursS1 now exam >=? 8) minutes 540
  && agreesOff (sleepHoursS1 now exam >=? 6) minutes 420
  && agreesOff (sleepHoursS1 now exam >=? 4) minutes 300
  && agreesOff (sleepHoursS1 now exam >? 0) minutes 60.

(** The late hours are those from 22:00 on and up to 04:00. *)
Definition lateMinutes : bool :=
  forallb
    (fun a => Bool.eqb (isLateNight (snd a))
                       ((1320 <=? fst a) || (fst a <=? 240))%uint63)
    minuteTable.

(** ** Checks on the two scenarios *)

(** The hours of the strategic split add up to the available time. *)
Definition hoursAddUp (now exam : float) : bool :=
  let a := availableHours now exam in
  if a <? 1 then
    PrimFloat.Leibniz.eqb (sleepHoursS1 now exam) 0
    && PrimFloat.Leibniz.eqb (studyHoursS2 now exam) 0
    && PrimFloat.Leibniz.eqb (sleepHoursS2 now exam) 0
  else
    PrimFloat.Leibniz.eqb (studyHoursS2 now exam + sleepHoursS2 now exam + 1) a
    && PrimFloat.Leibniz.eqb (sleepHoursS1 now exam) (a - 1).

(** Study is planned only with six hours of sleep left, and from five
    available hours on four hours of sleep are left. *)
Definition sleepKept (now exam : float) : bool :=
  (negb (0 <? studyHoursS2 now exam) || (6 <=? sleepHoursS2 now exam))
  && ((availableHours now exam <? 5) || (4 <=? sleepHoursS2 now exam)).

(** Unless scenario 1 has six hours of sleep, scenario 2 plans no study and
    the same sleep.  Scenario 1 has less than four hours of sleep below five
    available hours, less than six below seven, and four from five on. *)
Definition scenariosCoincide (now exam : float) : bool :=
  let a := availableHours now exam in
  let s1 := sleepHoursS1 now exam in
  ((6 <=? s1)
   || (PrimFloat.Leibniz.eqb (studyHoursS2 now exam) 0
       && PrimFloat.Leibniz.eqb (sleepHoursS2 now exam) s1))
  && (negb (a <? 5) || (s1 <? 4))
  && (negb (a <? 7) || (s1 <? 6))
  && (negb (5 <=? a) || (4 <=? s1)).

(** The sleep of the two scenarios and the study of the second, by the band
    the available hours are in. *)
Definition decisionBands (now exam : float) : bool :=
  let a := availableHours now exam in
  let s1 := sleepHoursS1 now exam in
  let s2 := sleepHoursS2 now exam in
  let study := studyHoursS2 now exam in
  if a <? 5 then true
  else if a <? 7 then 5 <=? a
  else if a <? 9 then (7 <=? a) && (6 <=? s1) && (s1 <? 8) && (6 <=? s2)
  else if a <? 12 then
    (9 <=? a) && (8 <=? s1) && (6 <=? s2) && (s2 <? 8) && (2 <=? study)
  else (12 <=? a) && (8 <=? s1) && (8 <=? s2) && PrimFloat.Leibniz.eqb study 3.

(** From nine to less than twelve available hours the plan of scenario 1
    prints eight, nine or ten hours of sleep. *)
Definition sleepPlanHours (now exam : float) : bool :=
  let a := availableHours now exam in
  let n := Math_floor (sleepHoursS1 now exam) in
  negb ((9 <=? a) && (a <? 12))
  || PrimFloat.Leibniz.eqb n 8 || PrimFloat.Leibniz.eqb n 9
  || PrimFloat.Leibniz.eqb n 10.

(** ** The state setters and [resetApp] (source lines 22-28, 177-181) *)

Definition setExamTime (v : string) (st : State) : State :=
  {| step := step st; examTime := v; currentTime := currentTime st;
     confidence := confidence st; hoursStudied := hoursStudied st;
     quizAnswers := quizAnswers st; result := result st |}.

Definition setCurrentTime (v : string) (st : State) : State :=
  {| step := step st; examTime := examTime st; currentTime := v;
     confidence := confidence st; hoursStudied := hoursStudied st;
     quizAnswers := quizAnswers st; result := result st |}.

Definition setConfidence (v : float) (st : State) : State :=
  {| step := step st; examTime := examTime st; currentTime := currentTime st;
     confidence := v; hoursStudied := hoursStudied st;
     quizAnswers := quizAnswers st; result := result st |}.

Definition setHoursStudied (v : float) (st : State) : State :=
  {| step := step st; examTime := examTime st; currentTime := currentTime st;
     confidence := confidence st; hoursStudied := v;
     quizAnswers := quizAnswers st; result := result st |}.

Definition setQuizAnswers (q : QuizAnswers) (st : State) : State :=
  {| step := step st; examTime := examTime st; currentTime := currentTime st;
     confidence := confidence st; hoursStudied := hoursStudied st;
     quizAnswers := q; result := result st |}.

Definition resetApp (st : State) : State :=
  setResult None
    (setQuizAnswers {| q1 := 0; q2 := 0; q3 := 0 |} (setStep "input" st)).

(** ** The handlers of the three screens *)

(** [x || y] on numbers: [y] when [x] is [NaN] or a zero. *)
Definition js_or (x y : float) : float :=
  if is_nan x || PrimFloat.is_zero x then y else x.

(** The [onChange] of the hours field (line 588),
    [setHoursStudied(Math.max(0, parseInt(e.target.value) || 0))].  The
    argument [parsed] is what [parseInt] returned: any number, [NaN]
    included. *)
Definition onHoursChange (parsed : float) (st : State) : State :=
  setHoursStudied (Math_max 0 (js_or parsed 0)) st.

(** The [onChange] of the slider (line 602),
    [setConfidence(parseInt(e.target.value))]. *)
Definition onConfidenceChange (parsed : float) (st : State) : State :=
  setConfidence parsed st.

(** The four options of a quiz question (lines 227-230, 259-262, 291-294). *)
Inductive QuizOption : Type := option0 | option33 | option67 | option100.

Definition optionValue (o : QuizOption) : float :=
  match o with
  | option0 => 0
  | option33 => 33
  | option67 => 67
  | option100 => 100
  end.

Inductive Question : Type := question1 | question2 | question3.

(** The [onClick] of an option (lines 234, 266, 298),
    [setQuizAnswers({ ...quizAnswers, q1: option.value })]. *)
Definition onOptionClick (n : Question) (o : QuizOption) (st : State) : State :=
  let q := quizAnswers st in
  setQuizAnswers
    match n with
    | question1 => {| q1 := optionValue o; q2 := q2 q; q3 := q3 q |}
    | question2 => {| q1 := q1 q; q2 := optionValue o; q3 := q3 q |}
    | question3 => {| q1 := q1 q; q2 := q2 q; q3 := optionValue o |}
    end
    st.

(** The [disabled] attribute of the submit button (line 326). *)
Definition submitDisabled (st : State) : bool :=
  (q1 (quizAnswers st) =? 0) && (q2 (quizAnswers st) =? 0)
  && (q3 (quizAnswers st) =? 0).

(** The screen the component renders (lines 201, 352, 540). *)
Inductive Screen : Type := quizScreen | resultScreen | inputScreen.

Definition screen (st : State) : Screen :=
  if String.eqb (step st) "quiz" then quizScreen
  else if String.eqb (step st) "result"
          && match result st with Some _ => true | None => false end
       then resultScreen
  else inputScreen.

(** What the user can do.  Each event belongs to the screen that shows its
    control: the two time fields (lines 564, 576), the hours field (588),
    the slider (602) and Continue (615) on the input screen; the options
    (234, 266, 298), Back (319) and the submit button (325, which calls
    [handleQuizSubmit], lines 202-204) on the quiz screen; New Decision
    (530) on the result screen. *)
Inductive Event : Type :=
  | changeCurrentTime (value : string)
  | changeExamTime (value : string)
  | changeHours (parsed : float)
  | changeConfidence (parsed : float)
  | continueToQuiz
  | clickOption (n : Question) (o : QuizOption)
  | backToInput
  | submitQuiz
  | newDecision.

(** The state after an event.  [None] when the screen shown has no such
    control, when the submit button is disabled, and when
    [calculateRecommendation] is [None]. *)
Definition handle (e : Event) (st : State) : option State :=
  match screen st, e with
  | inputScreen, changeCurrentTime v => Some (setCurrentTime v st)
  | inputScreen, changeExamTime v => Some (setExamTime v st)
  | inputScreen, changeHours n => Some (onHoursChange n st)
  | inputScreen, changeConfidence n => Some (onConfidenceChange n st)
  | inputScreen, continueToQuiz => Some (setStep "quiz" st)
  | quizScreen, clickOption n o => Some (onOptionClick n o st)
  | quizScreen, backToInput => Some (setStep "input" st)
  | quizScreen, submitQuiz =>
      if submitDisabled st then None else calculateRecommendation st
  | resultScreen, newDecision => Some (resetApp st)
  | _, _ => None
  end.

Fixpoint handleAll (events : list Event) (st : State) : option State :=
  match events with
  | [] => Some st
  | e :: rest =>
      match handle e st with
      | Some st' => handleAll rest st'
      | None => None
      end
  end.

(** The states the component can be in: those some sequence of events leads
    to from the initial one. *)
Definition Reachable (st : State) : Prop :=
  exists events, handleAll events initialState = Some st.

(** What holds of every state the component can be in. *)
Definition isOption (q : float) : Prop := exists o, q = optionValue o.

Definition Invariant (st : State) : Prop :=
  (isOption (q1 (quizAnswers st)) /\ isOption (q2 (quizAnswers st))
   /\ isOption (q3 (quizAnswers st)))
  /\ 0 <= hoursStudied st
  /\ (step st = "input" \/ step st = "quiz" \/ step st = "result")%string
  /\ (step st = "result"%string <-> result st <> None)
  /\ (forall r, result st = Some r ->
        submitDisabled st = false
        /\ exists now exam,
             parseTime (currentTime st) = Some now
             /\ parseTime (examTime st) = Some exam
             /\ r = resultObject now exam (hoursStudied st) (confidence st)
                               (quizAnswers st)).

(** ** The look-up functions of the result screen (lines 183-199)

    At run time a decision is the string ['sleep'] or ['strategic-cram']. *)

Definition decisionTag (d : Decision) : string :=
  match d with
  | sleep => "sleep"
  | strategic_cram => "strategic-cram"
  end.

Definition getDecisionColor (decision : string) : string :=
  if String.eqb decision "sleep"
  then "bg-gradient-to-br from-teal-600 to-emerald-700"
  else if String.eqb decision "strategic-cram"
  then "bg-gradient-to-br from-blue-600 to-cyan-700"
  else "bg-gradient-to-br from-blue-500 to-blue-700".

(** The icons of [lucide-react] the function chooses from. *)
Inductive Icon : Type := Moon | Brain | BookOpen.

Definition getDecisionIcon (decision : string) : Icon :=
  if String.eqb decision "sleep" then Moon
  else if String.eqb decision "strategic-cram" then Brain
  else BookOpen.

Definition getDecisionTitle (decision : string) : string :=
  if String.eqb decision "sleep" then "Sleep Now"
  else if String.eqb decision "strategic-cram" then "Strategic Study + Sleep"
  else "Cram Time".

(** The number in "The chosen plan provides a ...% higher projected score
    boost" (line 525), [Math.abs(result.boostS1 - result.boostS2)]. *)
Definition boostGap (r : Result.t) : float :=
  abs (Result.boostS1 r - Result.boostS2 r).

(** Two inputs seven hours before the exam. *)
Definition sevenHoursEvening : State := inputState "22:00" "05:00" 0 50 33 33 0.
Definition sevenHoursNight : State := inputState "01:10" "08:10" 0 50 33 33 0.

(** A first run of the component: continue to the quiz, pick the second
    option of question 1 and submit. *)
Definition firstRun : list Event :=
  [continueToQuiz; clickOption question1 option33; submitQuiz].

Definition firstResult : State :=
  match handleAll firstRun initialState with
  | Some st => st
  | None => initialState
  end.

(** The totals of the two cards of the comparison panel: "Total Boost" of
    the chosen plan (line 469) and of the alternative (line 502). *)
Definition chosenTotal (r : Result.t) : float :=
  match Result.decision r with
  | sleep => Result.boostS1 r
  | strategic_cram => Result.boostS2 r
  end.

Definition alternativeTotal (r : Result.t) : float :=
  match Result.decision r with
  | sleep => Result.boostS2 r
  | strategic_cram => Result.boostS1 r
  end.

(** * Properties *)

(** ** The runtime on sample values *)

Example Math_round_samples :
  map Math_round
    [2.5; -2.5; 0.49999999999999994; 25.499999999999996; 74.5; -0.2; 240]
  = [3; -2; 0; 25; 75; -0; 240].
Proof. reflexivity. Qed.

Example Math_floor_samples :
  map Math_floor [2.5; -2.5; 0.5; -0.5; 7; 104.33333333333334; -0]
  = [2; -3; 0; -1; 7; 104; -0].
Proof. reflexivity. Qed.

Example Math_max_min_samples :
  (Math_max 0 (-25), Math_max 0 21.4, Math_max 0 (-0), Math_min 3 1.5, Math_min 3 4)
  = (0, 21.4, 0, 1.5, 3).
Proof. reflexivity. Qed.

Example parseTime_samples :
  map parseTime ["22:00"; "09:30"; "7:5"; ""; "12h"]%string
  = [Some 22; Some 9.5; Some (7 + 5 / 60); None; None].
Proof. reflexivity. Qed.

Example toString_samples :
  map toString [3; 2.5; 10.4; 0; 25; Math_floor (23.9 * 10) / 10]
  = ["3"; "2.5"; "10.4"; "0"; "25"; "23.9"]%string.
Proof. reflexivity. Qed.

(** The blend of the confidence is the binary64 one: with the answers 33,
    0, 0 and the slider at 8 the sum is a little below 25.5, and the final
    confidence is 25. *)
Example finalConfidence_binary64 :
  0.7 * (33 + 0 + 0) + 0.3 * 8 = 25.499999999999996
  /\ finalConfidence 8 {| q1 := 33; q2 := 0; q3 := 0 |} = 25.
Proof. split; reflexivity. Qed.

(** ** The order of binary64 numbers

    The comparisons are those of the specification [SFcompare] of the
    Standard Library, a lexicographic comparison of sign, exponent and
    mantissa. *)

Ltac sf_cases :=
  repeat match goal with
         | H : context [(?a ?= ?b)%Z] |- _ => destruct (Z.compare_spec a b)
         | |- context [(?a ?= ?b)%Z] => destruct (Z.compare_spec a b)
         | H : context [PosDef.Pos.compare_cont Eq ?a ?b] |- _ =>
             change (PosDef.Pos.compare_cont Eq a b) with (Pos.compare a b) in *;
             destruct (Pos.compare_spec a b)
         | |- context [PosDef.Pos.compare_cont Eq ?a ?b] =>
             change (PosDef.Pos.compare_cont Eq a b) with (Pos.compare a b) in *;
             destruct (Pos.compare_spec a b)
         end.

Ltac sf_order :=
  unfold SFltb, SFleb, SFeqb, SFcompare;
  repeat match goal with x : spec_float |- _ => destruct x end;
  repeat match goal with b : bool |- _ => destruct b end;
  intros; try discriminate; try reflexivity;
  sf_cases; cbn [CompOpp] in *; subst;
  try discriminate; try reflexivity; exfalso; lia.

Lemma SFltb_not_ge (x y : spec_float) : SFltb x y = true -> SFleb y x = false.
Proof. sf_order. Qed.

Lemma SFleb_not_gt (x y : spec_float) : SFleb x y = true -> SFltb y x = false.
Proof. sf_order. Qed.

Lemma SFltb_leb_trans (x a b : spec_float) :
  SFltb x a = true -> SFleb a b = true -> SFltb x b = true.
Proof. sf_order. Qed.

Lemma SFleb_ltb_trans (x a b : spec_float) :
  SFleb x a = true -> SFltb a b = true -> SFltb x b = true.
Proof. sf_order. Qed.

Lemma SFeqb_leb (x y : spec_float) : SFeqb x y = true -> SFleb x y = true.
Proof. sf_order. Qed.

Lemma flt_not_ge (x y : float) : x < y -> (y <=? x) = false.
Proof.
  unfold flt. rewrite FloatAxioms.ltb_spec, FloatAxioms.leb_spec.
  apply SFltb_not_ge.
Qed.

Lemma fle_not_gt (x y : float) : x <= y -> (y <? x) = false.
Proof.
  unfold fle. rewrite FloatAxioms.ltb_spec, FloatAxioms.leb_spec.
  apply SFleb_not_gt.
Qed.

Lemma flt_le_trans (x a b : float) : x < a -> a <= b -> x < b.
Proof.
  unfold flt, fle. rewrite !FloatAxioms.ltb_spec, FloatAxioms.leb_spec.
  apply SFltb_leb_trans.
Qed.

Lemma fle_lt_trans (x a b : float) : x <= a -> a < b -> x < b.
Proof.
  unfold flt, fle. rewrite !FloatAxioms.ltb_spec, FloatAxioms.leb_spec.
  apply SFleb_ltb_trans.
Qed.

Lemma feq_le (x y : float) : x == y -> x <= y.
Proof.
  unfold feq, fle. rewrite FloatAxioms.eqb_spec, FloatAxioms.leb_spec.
  apply SFeqb_leb.
Qed.

(** A number below [a] is not at or above a constant [b] that [a] does not
    exceed. *)
Lemma below_not_ge (x a b : float) : x < a -> a <= b -> (x >=? b) = false.
Proof. intros H L. apply flt_not_ge. exact (flt_le_trans x a b H L). Qed.

(** ** Clock times: what [parseTime] returns on an [HH:MM] string *)

Lemma digit_range (c : ascii) (d : Z) : digit c = Some d -> (0 <= d <= 9)%Z.
Proof.
  unfold digit.
  destruct ((48 <=? _) && (_ <=? 57))%Z eqn:E; [| discriminate].
  intros [= <-]. apply andb_true_iff in E. lia.
Qed.

Lemma digit_not_colon (c : ascii) (d : Z) :
  digit c = Some d -> Ascii.eqb c ":" = false.
Proof.
  destruct (Ascii.eqb_spec c ":") as [-> | _]; [discriminate | reflexivity].
Qed.

Lemma split_HHMM (h1 h0 m1 m0 : ascii) :
  Ascii.eqb h1 ":" = false -> Ascii.eqb h0 ":" = false ->
  Ascii.eqb m1 ":" = false -> Ascii.eqb m0 ":" = false ->
  split ":" (String h1 (String h0 (String ":" (String m1 (String m0 ""))))) =
  [String h1 (String h0 ""); String m1 (String m0 "")].
Proof.
  intros E1 E0 F1 F0. cbn [split]. rewrite E1, E0, F1, F0. reflexivity.
Qed.

Lemma Number_two_digits (x y : ascii) (a b : Z) :
  digit x = Some a -> digit y = Some b ->
  Number (String x (String y "")) = Some (ofZ (10 * a + b)).
Proof.
  intros Ea Eb. unfold Number. cbn [String.length Nat.leb digits].
  rewrite Ea, Eb. cbn [option_map].
  replace (10 * (10 * 0 + a) + b)%Z with (10 * a + b)%Z by lia. reflexivity.
Qed.

Lemma parseTime_HHMM (s : string) :
  isHHMM s = true ->
  exists h m : Z,
    (0 <= h < 24)%Z /\ (0 <= m < 60)%Z /\ parseTime s = Some (clock h m).
Proof.
  destruct s as [| h1 [| h0 [| c [| m1 [| m0 [| ? ?]]]]]]; try discriminate.
  unfold isHHMM.
  destruct (digit h1) as [a |] eqn:Ea; [| discriminate].
  destruct (digit h0) as [b |] eqn:Eb; [| discriminate].
  destruct (digit m1) as [d |] eqn:Ed; [| discriminate].
  destruct (digit m0) as [e |] eqn:Ee; [| discriminate].
  rewrite !andb_true_iff, Z.ltb_lt, Z.ltb_lt.
  intros [[Hc Hh] Hm]. apply Ascii.eqb_eq in Hc. subst c.
  pose proof (digit_range _ _ Ea). pose proof (digit_range _ _ Eb).
  pose proof (digit_range _ _ Ed). pose proof (digit_range _ _ Ee).
  exists (10 * a + b)%Z, (10 * d + e)%Z.
  split; [lia |]. split; [lia |].
  unfold parseTime.
  rewrite (split_HHMM _ _ _ _ (digit_not_colon _ _ Ea) (digit_not_colon _ _ Eb)
             (digit_not_colon _ _ Ed) (digit_not_colon _ _ Ee)).
  cbn [map].
  rewrite (Number_two_digits _ _ _ _ Ea Eb), (Number_two_digits _ _ _ _ Ed Ee).
  reflexivity.
Qed.

Lemma clock_In (h m : Z) :
  (0 <= h < 24)%Z -> (0 <= m < 60)%Z -> In (clock h m) clocks.
Proof.
  intros Hh Hm. unfold clocks. apply in_flat_map.
  exists (Z.to_nat h). split; [apply in_seq; lia |].
  apply in_map_iff. exists (Z.to_nat m).
  split; [| apply in_seq; lia].
  rewrite !Z2Nat.id by lia. reflexivity.
Qed.

Lemma forallClocks_In (check : float -> float -> bool) (now exam : float) :
  forallClocks check = true ->
  In now clocks -> In exam clocks -> check now exam = true.
Proof.
  unfold forallClocks. intros H Hn He.
  rewrite forallb_forall in H. specialize (H now Hn).
  rewrite forallb_forall in H. exact (H exam He).
Qed.

(** On a well-formed state the call returns: both clock times parse, to
    times of day, and the result object is stored. *)
Lemma wellFormed_Runs (st : State) :
  wellFormed st = true ->
  exists now exam r,
    Runs st now exam r /\ In now clocks /\ In exam clocks.
Proof.
  unfold wellFormed. rewrite !andb_true_iff.
  intros [[[[[[[Hc He] _] _] _] _] _] _].
  destruct (parseTime_HHMM _ Hc) as (h & m & Hh & Hm & Pc).
  destruct (parseTime_HHMM _ He) as (h' & m' & Hh' & Hm' & Pe).
  exists (clock h m), (clock h' m').
  eexists. split; [| split; apply clock_In; assumption].
  unfold Runs. split; [exact Pc |]. split; [exact Pe |]. split; [reflexivity |].
  unfold calculateRecommendation. rewrite Pc, Pe. reflexivity.
Qed.

(** [parsed H] replaces, in the goal, the time that the hypothesis
    [H : parseTime s = Some t] names by the value the parser computes. *)
Ltac parsed H := vm_compute in H; injection H as <-.

(** ** The decision rule *)

Lemma decision_verdict (now exam hs c : float) (q : QuizAnswers) :
  decision (verdict now exam hs c q) =
  if scenario1Wins now exam hs c q then sleep else strategic_cram.
Proof.
  unfold verdict.
  destruct (scenario1Wins now exam hs c q); [| reflexivity].
  destruct (availableHours now exam <? 5); reflexivity.
Qed.

Lemma projectedBoost_verdict (now exam hs c : float) (q : QuizAnswers) :
  projectedBoost (verdict now exam hs c q) =
  Math_max 0 (if scenario1Wins now exam hs c q
              then boostS1 now exam else boostS2 now exam hs c q).
Proof.
  unfold verdict.
  destruct (scenario1Wins now exam hs c q); [| reflexivity].
  destruct (availableHours now exam <? 5); reflexivity.
Qed.

Lemma scenario1Wins_true (now exam hs c : float) (q : QuizAnswers) :
  scenario1Wins now exam hs c q = true <->
  availableHours now exam < 5
  \/ (boostS2 now exam hs c q < boostS1 now exam /\ 6 <= sleepHoursS1 now exam).
Proof.
  unfold scenario1Wins, flt, fle.
  rewrite orb_true_iff, andb_true_iff. reflexivity.
Qed.

(** C1.  On every well-formed input the call returns a result whose decision
    is Sleep exactly when [availableHours < 5], or [boostS1 > boostS2] and
    [sleepHoursS1 >= 6]; it is StrategicCram exactly when that condition
    fails.  In particular [availableHours < 5] gives Sleep whatever the
    other inputs are. *)
Theorem decision_rule (st : State) :
  wellFormed st = true ->
  exists now exam r,
    Runs st now exam r /\
    let hs := hoursStudied st in
    let c := confidence st in
    let q := quizAnswers st in
    let sleepCondition :=
      availableHours now exam < 5
      \/ (boostS2 now exam hs c q < boostS1 now exam
          /\ 6 <= sleepHoursS1 now exam) in
    (Result.decision r = sleep <-> sleepCondition)
    /\ (Result.decision r = strategic_cram <-> ~ sleepCondition)
    /\ (availableHours now exam < 5 -> Result.decision r = sleep).
Proof.
  intros WF. destruct (wellFormed_Runs st WF) as (now & exam & r & HR & _).
  exists now, exam, r. split; [exact HR |].
  destruct HR as (_ & _ & -> & _). cbn zeta. cbn [resultObject Result.decision].
  rewrite decision_verdict, <- scenario1Wins_true.
  destruct (scenario1Wins now exam (hoursStudied st) (confidence st)
              (quizAnswers st)) eqn:E.
  - repeat split; intros; try reflexivity; try discriminate; congruence.
  - repeat split; intros; try reflexivity; try discriminate; try congruence.
    exfalso.
    apply (eq_true_false_abs _ (proj2 (scenario1Wins_true _ _ _ _ _) (or_introl H)) E).
Qed.

Lemma decision_rule_witness :
  exists now exam r,
    Runs shortNight now exam r
    /\ availableHours now exam = 4
    /\ Result.decision r = sleep.
Proof.
  destruct (decision_rule shortNight eq_refl) as (now & exam & r & HR & _ & _ & H).
  exists now, exam, r. split; [exact HR |].
  destruct HR as (Pn & Pe & _). parsed Pn. parsed Pe.
  split; [reflexivity |]. apply H. reflexivity.
Defined.

(** C2.  The end-to-end example: at 22:00 with the exam at 09:00, nothing
    studied, the slider at 50 and every quiz answer 0, the engine computes
    availableHours 11, finalConfidence 15, cognitiveStateFactor 0.5,
    studyHoursS2 3, cramBenefit 25, sleepHoursS2 7, sleepBenefit(7) 15,
    boostS2 40, sleepHoursS1 10, boostS1 25, and returns StrategicCram with
    projectedBoost 40. *)
Theorem end_to_end_example :
  exists now exam r,
    Runs lateEvening now exam r
    /\ availableHours now exam = 11
    /\ finalConfidence (confidence lateEvening) (quizAnswers lateEvening) = 15
    /\ cognitiveStateFactor now (hoursStudied lateEvening) = 0.5
    /\ studyHoursS2 now exam = 3
    /\ cramBenefitS2 now exam (hoursStudied lateEvening) (confidence lateEvening)
         (quizAnswers lateEvening) = 25
    /\ sleepHoursS2 now exam = 7
    /\ getSleepBenefit 7 = 15
    /\ sleepBenefitS2 now exam = 15
    /\ boostS2 now exam (hoursStudied lateEvening) (confidence lateEvening)
         (quizAnswers lateEvening) = 40
    /\ sleepHoursS1 now exam = 10
    /\ boostS1 now exam = 25
    /\ Result.decision r = strategic_cram
    /\ Result.projectedBoost r = 40.
Proof.
  exists (clock 22 0), (clock 9 0).
  eexists. split.
  - unfold Runs. repeat split; reflexivity.
  - vm_compute. repeat split; reflexivity.
Qed.

(** ** The projected boost *)

(** [split_ifs] decides every test of the goal both ways. *)
Ltac split_ifs :=
  repeat match goal with
         | |- context [if ?b then _ else _] => destruct b
         end.

(** Whatever the inputs are, the two boosts take one of finitely many
    values, one per outcome of the tests of [getSleepBenefit],
    [getCramBenefit] and the cognitive state; the clamped and rounded boost
    is not negative at any of them. *)
Lemma clamped_boostS1_nonneg (now exam : float) :
  0 <= Math_round (Math_max 0 (boostS1 now exam)).
Proof.
  unfold boostS1, getSleepBenefit.
  generalize (sleepHoursS1 now exam). intros s.
  split_ifs; reflexivity.
Qed.

Lemma clamped_boostS2_nonneg (now exam hs c : float) (q : QuizAnswers) :
  0 <= Math_round (Math_max 0 (boostS2 now exam hs c q)).
Proof.
  unfold boostS2, cramBenefitS2, sleepBenefitS2, getSleepBenefit, getCramBenefit,
    cognitiveStateFactor, fatigueFactor, timeFactor.
  generalize (sleepHoursS2 now exam) (studyHoursS2 now exam).
  generalize (lowConfidence c q) (highConfidence c q) (isLateNight now).
  intros low high late s h. cbn zeta.
  split_ifs; reflexivity.
Qed.

(** C3.  On every well-formed input the [projectedBoost] of the result is
    the boost of the chosen scenario, [boostS1] for Sleep and [boostS2] for
    StrategicCram, clamped below at 0 by [Math.max] and rounded to the
    nearest integer; it is never negative. *)
Theorem projectedBoost_clamped (st : State) :
  wellFormed st = true ->
  exists now exam r,
    Runs st now exam r /\
    let chosenBoost :=
      match Result.decision r with
      | sleep => boostS1 now exam
      | strategic_cram =>
          boostS2 now exam (hoursStudied st) (confidence st) (quizAnswers st)
      end in
    Result.projectedBoost r = Math_round (Math_max 0 chosenBoost)
    /\ 0 <= Result.projectedBoost r.
Proof.
  intros WF. destruct (wellFormed_Runs st WF) as (now & exam & r & HR & _).
  exists now, exam, r. split; [exact HR |].
  destruct HR as (_ & _ & -> & _). cbn zeta.
  cbn [resultObject Result.decision Result.projectedBoost].
  rewrite decision_verdict, projectedBoost_verdict.
  destruct (scenario1Wins _ _ _ _ _).
  - split; [reflexivity | apply clamped_boostS1_nonneg].
  - split; [reflexivity | apply clamped_boostS2_nonneg].
Qed.

Lemma projectedBoost_clamped_witness :
  exists now exam r,
    Runs shortNight now exam r
    /\ boostS1 now exam = -25
    /\ Result.decision r = sleep
    /\ Result.projectedBoost r = 0.
Proof.
  destruct (projectedBoost_clamped shortNight eq_refl)
    as (now & exam & r & HR & HP & _).
  exists now, exam, r. split; [exact HR |].
  destruct HR as (Pn & Pe & -> & _). parsed Pn. parsed Pe.
  split; [reflexivity |]. split; [reflexivity |].
  rewrite HP. reflexivity.
Defined.

(** ** The sleep benefit *)

(** C4.  [getSleepBenefit] is exactly 25 from 8 hours of sleep on, 15 from 6
    hours to below 8, 5 from 4 hours to below 6, -25 strictly between 0 and
    4 hours (3.9, say) and -40 at 0 hours. *)
Theorem getSleepBenefit_steps (sleepHours : float) :
  (8 <= sleepHours -> getSleepBenefit sleepHours = 25)
  /\ (6 <= sleepHours < 8 -> getSleepBenefit sleepHours = 15)
  /\ (4 <= sleepHours < 6 -> getSleepBenefit sleepHours = 5)
  /\ (0 < sleepHours < 4 -> getSleepBenefit sleepHours = -25)
  /\ (sleepHours == 0 -> getSleepBenefit sleepHours = -40).
Proof.
  unfold getSleepBenefit, optimalSleep, minSleepNeeded.
  split; [| split; [| split; [| split]]].
  - intros H. rewrite H. reflexivity.
  - intros [H6 H8].
    rewrite (flt_not_ge _ _ H8), H6. reflexivity.
  - intros [H4 H6].
    rewrite (below_not_ge _ 6 8 H6 eq_refl), (flt_not_ge _ _ H6), H4.
    reflexivity.
  - intros [H0 H4].
    rewrite (below_not_ge _ 4 8 H4 eq_refl), (below_not_ge _ 4 6 H4 eq_refl),
      (flt_not_ge _ _ H4), H0.
    reflexivity.
  - intros H. apply feq_le in H.
    assert (L : sleepHours < 4) by exact (fle_lt_trans _ 0 4 H eq_refl).
    rewrite (below_not_ge _ 4 8 L eq_refl), (below_not_ge _ 4 6 L eq_refl),
      (flt_not_ge _ _ L), (fle_not_gt _ _ H).
    reflexivity.
Qed.

Lemma getSleepBenefit_steps_witness :
  getSleepBenefit 8 = 25 /\ getSleepBenefit 6 = 15 /\ getSleepBenefit 4 = 5
  /\ getSleepBenefit 3.9 = -25 /\ getSleepBenefit 0 = -40.
Proof.
  split; [apply (getSleepBenefit_steps 8); reflexivity |].
  split; [apply (getSleepBenefit_steps 6); split; reflexivity |].
  split; [apply (getSleepBenefit_steps 4); split; reflexivity |].
  split; [apply (getSleepBenefit_steps 3.9); split; reflexivity |].
  apply (getSleepBenefit_steps 0); reflexivity.
Defined.

(** ** The available time *)

Lemma availableHours_cases (now exam : float) :
  (exam - now < 0 -> availableHours now exam = exam - now + 24)
  /\ (0 <= exam - now -> availableHours now exam = exam - now).
Proof.
  unfold availableHours. cbn zeta. split; intros H.
  - rewrite H. reflexivity.
  - rewrite (fle_not_gt _ _ H). reflexivity.
Qed.

(** The check of [availableHoursInDay] on all 1440 x 1440 pairs of clock
    times, by evaluation. *)
Lemma availableHours_checked : forallClocks availableHoursInDay = true.
Proof. vm_compute. reflexivity. Qed.

(** C5.  For every pair of [HH:MM] strings both parse, and the available
    time, the exam time minus the current time in fractional hours plus 24
    when that difference is negative, lies in [0, 24).  From 23:00 to 01:00
    it is exactly 2. *)
Theorem availableHours_range :
  (forall current exam : string,
      isHHMM current = true -> isHHMM exam = true ->
      exists now examHour,
        parseTime current = Some now
        /\ parseTime exam = Some examHour
        /\ (examHour - now < 0 ->
            availableHours now examHour = examHour - now + 24)
        /\ (0 <= examHour - now ->
            availableHours now examHour = examHour - now)
        /\ 0 <= availableHours now examHour < 24)
  /\ (exists now examHour,
        parseTime "23:00" = Some now
        /\ parseTime "01:00" = Some examHour
        /\ availableHours now examHour = 2).
Proof.
  split.
  - intros current exam Hc He.
    destruct (parseTime_HHMM _ Hc) as (h & m & Hh & Hm & Pc).
    destruct (parseTime_HHMM _ He) as (h' & m' & Hh' & Hm' & Pe).
    exists (clock h m), (clock h' m').
    split; [exact Pc |]. split; [exact Pe |].
    split; [apply availableHours_cases |]. split; [apply availableHours_cases |].
    apply andb_true_iff.
    apply (forallClocks_In availableHoursInDay _ _ availableHours_checked);
      apply clock_In; assumption.
  - exists (clock 23 0), (clock 1 0). repeat split; reflexivity.
Qed.

Lemma availableHours_range_witness :
  exists now examHour,
    parseTime "23:59" = Some now
    /\ parseTime "00:00" = Some examHour
    /\ availableHours now examHour = 0 - (23 + 59 / 60) + 24
    /\ 0 <= availableHours now examHour < 24.
Proof.
  destruct (proj1 availableHours_range "23:59" "00:00" eq_refl eq_refl)%string
    as (now & examHour & Pn & Pe & Hwrap & _ & Hrange).
  exists now, examHour. split; [exact Pn |]. split; [exact Pe |].
  split; [| exact Hrange].
  parsed Pn. parsed Pe. rewrite Hwrap; reflexivity.
Defined.

(** ** The cramming benefit and the confidence multiplier *)

Lemma highConfidence_high (c : float) (q : QuizAnswers) :
  75 <= finalConfidence c q ->
  lowConfidence c q = false /\ highConfidence c q = true.
Proof.
  intros H. unfold lowConfidence, highConfidence. split; [| exact H].
  apply flt_not_ge. exact (flt_le_trans 35 75 _ eq_refl H).
Qed.

Lemma neutralConfidence_neutral (c : float) (q : QuizAnswers) :
  35 < finalConfidence c q < 75 ->
  lowConfidence c q = false /\ highConfidence c q = false.
Proof.
  intros [H1 H2]. unfold lowConfidence, highConfidence.
  split; apply flt_not_ge; assumption.
Qed.

(** C6, as amended.  With the study hours and the cognitive state fixed, and
    at least one hour of study, the cramming benefit at a high final
    confidence (75 or more) is strictly below the benefit at a neutral one
    (strictly between 35 and 75), which is strictly below the benefit at a
    low one (35 or less).  With less than one hour of study the benefit is 0
    at every confidence. *)
Theorem cramBenefit_confidence
    (now hs hours cHigh cNeutral cLow : float)
    (qHigh qNeutral qLow : QuizAnswers) :
  75 <= finalConfidence cHigh qHigh ->
  35 < finalConfidence cNeutral qNeutral < 75 ->
  finalConfidence cLow qLow <= 35 ->
  (1 <= hours ->
   getCramBenefit now hs cHigh qHigh hours
   < getCramBenefit now hs cNeutral qNeutral hours
   /\ getCramBenefit now hs cNeutral qNeutral hours
      < getCramBenefit now hs cLow qLow hours)
  /\ (hours < 1 ->
      getCramBenefit now hs cHigh qHigh hours = 0
      /\ getCramBenefit now hs cNeutral qNeutral hours = 0
      /\ getCramBenefit now hs cLow qLow hours = 0).
Proof.
  intros HH HN HL.
  destruct (highConfidence_high _ _ HH) as [EH EH'].
  destruct (neutralConfidence_neutral _ _ HN) as [EN EN'].
  assert (EL : lowConfidence cLow qLow = true) by exact HL.
  unfold getCramBenefit, cognitiveStateFactor, fatigueFactor, timeFactor.
  rewrite EH, EH', EN, EN', EL. cbn zeta.
  generalize (isLateNight now). intros late.
  split; intros H1.
  - replace (hours >=? 1) with true by (symmetry; exact H1).
    split; split_ifs; reflexivity.
  - rewrite (flt_not_ge _ _ H1), (below_not_ge _ 1 2 H1 eq_refl),
      (below_not_ge _ 1 3 H1 eq_refl).
    repeat split; split_ifs; reflexivity.
Qed.

Lemma cramBenefit_confidence_witness :
  (getCramBenefit 12 0 50 highAnswers 3 = 30
   /\ getCramBenefit 12 0 50 neutralAnswers 3 = 40
   /\ getCramBenefit 12 0 50 lowAnswers 3 = 50)
  /\ (getCramBenefit 12 0 50 highAnswers 3
        < getCramBenefit 12 0 50 neutralAnswers 3
      /\ getCramBenefit 12 0 50 neutralAnswers 3
         < getCramBenefit 12 0 50 lowAnswers 3).
Proof.
  split; [repeat split |].
  apply (cramBenefit_confidence 12 0 3 50 50 50 highAnswers neutralAnswers lowAnswers).
  - reflexivity.
  - split; reflexivity.
  - reflexivity.
  - reflexivity.
Defined.

(** C6, as stated, fails where the study hours are below 1: the base is 0
    and no multiplier changes it.  With six hours left the strategic split
    plans no study at all, and the benefit is 0 at a high, a neutral and a
    low confidence alike. *)
Lemma cramBenefit_confidence_counterexample :
  75 <= finalConfidence 50 highAnswers
  /\ 35 < finalConfidence 50 neutralAnswers < 75
  /\ finalConfidence 50 lowAnswers <= 35
  /\ studyHoursS2 12 18 = 0
  /\ ~ (getCramBenefit 12 0 50 highAnswers (studyHoursS2 12 18)
        < getCramBenefit 12 0 50 neutralAnswers (studyHoursS2 12 18))
  /\ ~ (getCramBenefit 12 0 50 neutralAnswers (studyHoursS2 12 18)
        < getCramBenefit 12 0 50 lowAnswers (studyHoursS2 12 18)).
Proof.
  unfold flt, fle. vm_compute. repeat split; intros; discriminate.
Qed.

(** ** The confidence blend *)

(** C7.  The final confidence, which the result reports as
    [adjustedConfidence], is [round (0.7 * (q1 + q2 + q3) + 0.3 * slider)]:
    the quiz answers are summed, not averaged, and nothing clamps the
    result.  With three answers of 100 and the slider at 100 it is 240,
    above 100, where the blend of the average would be 100. *)
Theorem finalConfidence_blend :
  (forall st : State,
      wellFormed st = true ->
      exists now exam r,
        Runs st now exam r
        /\ Result.adjustedConfidence r =
           Math_round
             (0.7 * (q1 (quizAnswers st) + q2 (quizAnswers st) + q3 (quizAnswers st))
              + 0.3 * confidence st))
  /\ (exists now exam r,
        Runs fullMarks now exam r
        /\ Result.adjustedConfidence r = 240
        /\ 100 < Result.adjustedConfidence r
        /\ averagedConfidence (confidence fullMarks) (quizAnswers fullMarks) = 100).
Proof.
  split.
  - intros st WF. destruct (wellFormed_Runs st WF) as (now & exam & r & HR & _).
    exists now, exam, r. split; [exact HR |].
    destruct HR as (_ & _ & -> & _). reflexivity.
  - exists (clock 22 0), (clock 9 0). eexists. split.
    + unfold Runs. repeat split; reflexivity.
    + repeat split; reflexivity.
Qed.

Lemma finalConfidence_blend_witness :
  exists now exam r,
    Runs lateEvening now exam r /\ Result.adjustedConfidence r = 15.
Proof.
  destruct (proj1 finalConfidence_blend lateEvening eq_refl)
    as (now & exam & r & HR & HA).
  exists now, exam, r. split; [exact HR |]. rewrite HA. reflexivity.
Defined.

(** ** Determinism *)

(** C8.  The result depends on the five inputs alone: two calls on states
    that agree on the current time, the exam time, the hours studied, the
    slider and the quiz answers, whatever step they show and whatever
    earlier result they hold, either both stop at an unparsable time or
    store the same result object, equal in every field, and show the same
    step. *)
Theorem calculateRecommendation_deterministic (st1 st2 : State) :
  sameInputs st1 st2 ->
  option_map result (calculateRecommendation st1)
  = option_map result (calculateRecommendation st2)
  /\ option_map step (calculateRecommendation st1)
     = option_map step (calculateRecommendation st2).
Proof.
  intros (Hc & He & Hh & Hs & Hq). unfold calculateRecommendation.
  rewrite Hc, He, Hh, Hs, Hq.
  destruct (parseTime (currentTime st2)); [| split; reflexivity].
  destruct (parseTime (examTime st2)); split; reflexivity.
Qed.

Lemma calculateRecommendation_deterministic_witness :
  step initialState <> step lateEveningResult
  /\ result initialState <> result lateEveningResult
  /\ option_map result (calculateRecommendation initialState)
     = option_map result (calculateRecommendation lateEveningResult)
  /\ option_map result (calculateRecommendation lateEveningResult)
     = Some (result lateEveningResult).
Proof.
  split; [discriminate |]. split; [discriminate |].
  split; [| reflexivity].
  apply (calculateRecommendation_deterministic initialState lateEveningResult).
  unfold sameInputs. repeat split; reflexivity.
Defined.

(** ** The effective study hours *)

(** The check of [studyHoursTruncatedInRange] on all pairs of clock times,
    by evaluation. *)
Lemma studyHours_checked : forallClocks studyHoursTruncatedInRange = true.
Proof. vm_compute. reflexivity. Qed.

(** C9.  On every well-formed input, a Sleep result reports 0 effective
    study hours, and a StrategicCram result reports [studyHoursS2] truncated
    to one decimal, [floor (studyHoursS2 * 10) / 10], a value in [0, 3]. *)
Theorem effectiveStudyHours_by_decision (st : State) :
  wellFormed st = true ->
  exists now exam r,
    Runs st now exam r
    /\ (Result.decision r = sleep -> Result.effectiveStudyHours r = 0)
    /\ (Result.decision r = strategic_cram ->
        Result.effectiveStudyHours r = Math_floor (studyHoursS2 now exam * 10) / 10
        /\ 0 <= Result.effectiveStudyHours r <= 3).
Proof.
  intros WF.
  destruct (wellFormed_Runs st WF) as (now & exam & r & HR & Hn & He).
  exists now, exam, r. split; [exact HR |].
  destruct HR as (_ & _ & -> & _).
  cbn [resultObject Result.decision Result.effectiveStudyHours].
  rewrite decision_verdict.
  destruct (scenario1Wins _ _ _ _ _); split; intros D; try discriminate D.
  - reflexivity.
  - split; [reflexivity |]. apply andb_true_iff.
    exact (forallClocks_In studyHoursTruncatedInRange _ _ studyHours_checked Hn He).
Qed.

Lemma effectiveStudyHours_by_decision_witness :
  (exists now exam r,
      Runs shortNight now exam r
      /\ Result.decision r = sleep /\ Result.effectiveStudyHours r = 0)
  /\ (exists now exam r,
         Runs afternoon now exam r
         /\ Result.decision r = strategic_cram
         /\ studyHoursS2 now exam = 1.5
         /\ Result.effectiveStudyHours r = 1.5).
Proof.
  split.
  - destruct (effectiveStudyHours_by_decision shortNight eq_refl)
      as (now & exam & r & HR & HS & _).
    exists now, exam, r. split; [exact HR |].
    destruct HR as (Pn & Pe & Hr & _). parsed Pn. parsed Pe.
    assert (D : Result.decision r = sleep) by (rewrite Hr; reflexivity).
    split; [exact D | exact (HS D)].
  - destruct (effectiveStudyHours_by_decision afternoon eq_refl)
      as (now & exam & r & HR & _ & HC).
    exists now, exam, r. split; [exact HR |].
    destruct HR as (Pn & Pe & Hr & _). parsed Pn. parsed Pe.
    assert (D : Result.decision r = strategic_cram) by (rewrite Hr; reflexivity).
    split; [exact D |]. split; [reflexivity |].
    rewrite (proj1 (HC D)). reflexivity.
Defined.

(** ** Sleep chosen with five hours or more *)

Lemma getSleepBenefit_adequate (sleepHours : float) :
  6 <= sleepHours ->
  getSleepBenefit sleepHours = 25 \/ getSleepBenefit sleepHours = 15.
Proof.
  intros H. unfold getSleepBenefit, optimalSleep, minSleepNeeded.
  destruct (sleepHours >=? 8); [left; reflexivity |].
  rewrite H. right. reflexivity.
Qed.

(** C10.  On every well-formed input with five available hours or more, a
    Sleep decision was taken because [boostS1 > boostS2] and
    [sleepHoursS1 >= 6]; then [boostS1] is at least 15 and the projected
    boost is [boostS1] itself: neither the clamp at 0 nor the rounding
    changes it. *)
Theorem sleep_with_time_keeps_boost (st : State) :
  wellFormed st = true ->
  exists now exam r,
    Runs st now exam r
    /\ (5 <= availableHours now exam ->
        Result.decision r = sleep ->
        (boostS2 now exam (hoursStudied st) (confidence st) (quizAnswers st)
         < boostS1 now exam
         /\ 6 <= sleepHoursS1 now exam)
        /\ 15 <= boostS1 now exam
        /\ Result.projectedBoost r = boostS1 now exam).
Proof.
  intros WF. destruct (wellFormed_Runs st WF) as (now & exam & r & HR & _).
  exists now, exam, r. split; [exact HR |].
  destruct HR as (_ & _ & -> & _).
  cbn [resultObject Result.decision Result.projectedBoost].
  rewrite decision_verdict, projectedBoost_verdict.
  intros H5 D.
  destruct (scenario1Wins _ _ _ _ _) eqn:E; [| discriminate D].
  apply scenario1Wins_true in E. destruct E as [E | E].
  - exfalso. unfold flt in E. rewrite (fle_not_gt _ _ H5) in E. discriminate E.
  - split; [exact E |]. destruct E as [_ E].
    unfold boostS1 in *.
    destruct (getSleepBenefit_adequate _ E) as [-> | ->];
      split; reflexivity.
Qed.

Lemma sleep_with_time_keeps_boost_witness :
  exists now exam r,
    Runs tiredNight now exam r
    /\ availableHours now exam = 9
    /\ Result.decision r = sleep
    /\ boostS1 now exam = 25
    /\ Result.projectedBoost r = 25.
Proof.
  destruct (sleep_with_time_keeps_boost tiredNight eq_refl)
    as (now & exam & r & HR & H).
  exists now, exam, r. split; [exact HR |].
  destruct HR as (Pn & Pe & Hr & _). parsed Pn. parsed Pe.
  assert (D : Result.decision r = sleep) by (rewrite Hr; reflexivity).
  assert (A : 5 <= availableHours 23 8) by reflexivity.
  destruct (H A D) as (_ & _ & HP).
  split; [reflexivity |]. split; [exact D |]. split; [reflexivity |].
  rewrite HP. reflexivity.
Defined.

(** * Properties of the rest of the component *)

(** ** Minutes of the day *)

Lemma parseTime_minuteOfDay (s : string) :
  isHHMM s = true ->
  exists h m : Z,
    (0 <= h < 24)%Z /\ (0 <= m < 60)%Z
    /\ parseTime s = Some (clock h m)
    /\ minuteOfDay s = (60 * h + m)%Z.
Proof.
  destruct s as [| h1 [| h0 [| c [| m1 [| m0 [| ? ?]]]]]]; try discriminate.
  unfold isHHMM, minuteOfDay, digitValue.
  destruct (digit h1) as [a |] eqn:Ea; [| discriminate].
  destruct (digit h0) as [b |] eqn:Eb; [| discriminate].
  destruct (digit m1) as [d |] eqn:Ed; [| discriminate].
  destruct (digit m0) as [e |] eqn:Ee; [| discriminate].
  rewrite !andb_true_iff, Z.ltb_lt, Z.ltb_lt.
  intros [[Hc Hh] Hm]. apply Ascii.eqb_eq in Hc. subst c.
  pose proof (digit_range _ _ Ea). pose proof (digit_range _ _ Eb).
  pose proof (digit_range _ _ Ed). pose proof (digit_range _ _ Ee).
  exists (10 * a + b)%Z, (10 * d + e)%Z.
  split; [lia |]. split; [lia |]. split; [| reflexivity].
  unfold parseTime.
  rewrite (split_HHMM _ _ _ _ (digit_not_colon _ _ Ea) (digit_not_colon _ _ Eb)
             (digit_not_colon _ _ Ed) (digit_not_colon _ _ Ee)).
  cbn [map].
  rewrite (Number_two_digits _ _ _ _ Ea Eb), (Number_two_digits _ _ _ _ Ed Ee).
  reflexivity.
Qed.

Lemma minuteTable_In (h m : Z) :
  (0 <= h < 24)%Z -> (0 <= m < 60)%Z ->
  In (Uint63.of_Z (60 * h + m), clock h m) minuteTable.
Proof.
  intros Hh Hm. unfold minuteTable. apply in_flat_map.
  exists (Z.to_nat h). split; [apply in_seq; lia |].
  apply in_map_iff. exists (Z.to_nat m).
  split; [| apply in_seq; lia].
  rewrite !Z2Nat.id by lia. reflexivity.
Qed.

Lemma forallMinutes_In (check : int * float -> int * float -> bool)
    (a b : int * float) :
  forallMinutes check = true ->
  In a minuteTable -> In b minuteTable -> check a b = true.
Proof.
  unfold forallMinutes. intros H Ha Hb.
  rewrite forallb_forall in H. specialize (H a Ha).
  rewrite forallb_forall in H. exact (H b Hb).
Qed.

Lemma to_Z_of_Z_small (z : Z) : (0 <= z < 4096)%Z -> Uint63.to_Z (Uint63.of_Z z) = z.
Proof.
  intros H. rewrite Uint63.of_Z_spec. apply Z.mod_small.
  change wB with 9223372036854775808%Z. lia.
Qed.

(** The minutes between two minutes of the day, in machine integers, are
    the difference modulo 1440. *)
Lemma minutesBetween_mod (a b : Z) :
  (0 <= a < 1440)%Z -> (0 <= b < 1440)%Z ->
  minutesBetween (Uint63.of_Z a) (Uint63.of_Z b)
  = Uint63.of_Z ((b - a) mod 1440).
Proof.
  intros Ha Hb. apply Uint63.to_Z_inj.
  assert (Hd : (0 <= (b - a) mod 1440 < 1440)%Z) by (apply Z.mod_pos_bound; lia).
  rewrite (to_Z_of_Z_small ((b - a) mod 1440)) by lia.
  unfold minutesBetween.
  destruct (Uint63.ltbP (Uint63.of_Z b) (Uint63.of_Z a)) as [L | L];
    rewrite !to_Z_of_Z_small in L by lia.
  - rewrite Uint63.sub_spec, Uint63.add_spec, !to_Z_of_Z_small by lia.
    change (Uint63.to_Z 1440) with 1440%Z.
    change wB with 9223372036854775808%Z.
    rewrite (Z.mod_small (b + 1440)) by lia.
    rewrite (Z.mod_small (b + 1440 - a)) by lia.
    apply Z.mod_unique with (q := (-1)%Z); [left; lia | lia].
  - rewrite Uint63.sub_spec, !to_Z_of_Z_small by lia.
    change wB with 9223372036854775808%Z.
    rewrite (Z.mod_small (b - a)) by lia.
    symmetry. apply Z.mod_small. lia.
Qed.

Lemma feqb_eq (x y : float) : PrimFloat.Leibniz.eqb x y = true -> x = y.
Proof. apply FloatAxioms.Leibniz.eqb_spec. Qed.

(** On two [HH:MM] strings both clock times parse, and every check that
    holds of all pairs of the table holds of them. *)
Lemma clockTimes_checked (current exam : string) :
  isHHMM current = true -> isHHMM exam = true ->
  exists now examHour,
    parseTime current = Some now
    /\ parseTime exam = Some examHour
    /\ In now clocks /\ In examHour clocks
    /\ (0 <= minuteOfDay current < 1440)%Z
    /\ (0 <= minuteOfDay exam < 1440)%Z
    /\ forall check,
         forallMinutes check = true ->
         check (Uint63.of_Z (minuteOfDay current), now)
               (Uint63.of_Z (minuteOfDay exam), examHour) = true.
Proof.
  intros Hc He.
  destruct (parseTime_minuteOfDay _ Hc) as (h & m & Hh & Hm & Pc & Mc).
  destruct (parseTime_minuteOfDay _ He) as (h' & m' & Hh' & Hm' & Pe & Me).
  exists (clock h m), (clock h' m').
  split; [exact Pc |]. split; [exact Pe |].
  split; [apply clock_In; assumption |].
  split; [apply clock_In; assumption |].
  split; [lia |]. split; [lia |].
  intros check H. rewrite Mc, Me.
  apply (forallMinutes_In check _ _ H); apply minuteTable_In; assumption.
Qed.

Lemma minutesExact_checked : forallMinutes minutesExact = true.
Proof. vm_compute. reflexivity. Qed.

(** X1.  For two [HH:MM] times the available time, times 60 and rounded,
    is the number of minutes from the current time to the next occurrence
    of the exam time: their difference in minutes of the day, modulo
    1440. *)
Theorem availableMinutes_exact (current exam : string) :
  isHHMM current = true -> isHHMM exam = true ->
  exists now examHour,
    parseTime current = Some now
    /\ parseTime exam = Some examHour
    /\ Math_round (availableHours now examHour * 60)
       = ofZ ((minuteOfDay exam - minuteOfDay current) mod 1440).
Proof.
  intros Hc He.
  destruct (clockTimes_checked _ _ Hc He)
    as (now & examHour & Pc & Pe & _ & _ & Rc & Re & Checked).
  exists now, examHour. split; [exact Pc |]. split; [exact Pe |].
  specialize (Checked minutesExact minutesExact_checked).
  unfold minutesExact in Checked. cbn [fst snd] in Checked.
  apply feqb_eq in Checked. rewrite Checked.
  rewrite (minutesBetween_mod _ _ Rc Re). reflexivity.
Qed.

Lemma availableMinutes_exact_witness :
  exists now examHour,
    parseTime "23:17" = Some now
    /\ parseTime "09:43" = Some examHour
    /\ Math_round (availableHours now examHour * 60) = 626.
Proof.
  destruct (availableMinutes_exact "23:17" "09:43" eq_refl eq_refl)
    as (now & examHour & Pn & Pe & H).
  exists now, examHour. split; [exact Pn |]. split; [exact Pe |].
  exact H.
Defined.

Lemma digit_inj (c c' : ascii) (d : Z) :
  digit c = Some d -> digit c' = Some d -> c = c'.
Proof.
  unfold digit.
  destruct ((48 <=? _) && (_ <=? 57))%Z; [| discriminate].
  destruct ((48 <=? _) && (_ <=? 57))%Z; [| discriminate].
  intros [= H] [= H'].
  rewrite <- (ascii_N_embedding c), <- (ascii_N_embedding c'). f_equal. lia.
Qed.

Lemma minuteOfDay_inj (s s' : string) :
  isHHMM s = true -> isHHMM s' = true ->
  minuteOfDay s = minuteOfDay s' -> s = s'.
Proof.
  destruct s as [| h1 [| h0 [| c [| m1 [| m0 [| ? ?]]]]]]; try discriminate.
  destruct s' as [| h1' [| h0' [| c' [| m1' [| m0' [| ? ?]]]]]]; try discriminate.
  unfold isHHMM, minuteOfDay, digitValue.
  destruct (digit h1) as [a |] eqn:Ea; [| discriminate].
  destruct (digit h0) as [b |] eqn:Eb; [| discriminate].
  destruct (digit m1) as [d |] eqn:Ed; [| discriminate].
  destruct (digit m0) as [e |] eqn:Ee; [| discriminate].
  destruct (digit h1') as [a' |] eqn:Ea'; [| discriminate].
  destruct (digit h0') as [b' |] eqn:Eb'; [| discriminate].
  destruct (digit m1') as [d' |] eqn:Ed'; [| discriminate].
  destruct (digit m0') as [e' |] eqn:Ee'; [| discriminate].
  rewrite !andb_true_iff, !Z.ltb_lt.
  intros [[Hc Hh] Hm] [[Hc' Hh'] Hm'] E.
  apply Ascii.eqb_eq in Hc, Hc'. subst c c'.
  pose proof (digit_range _ _ Ea). pose proof (digit_range _ _ Eb).
  pose proof (digit_range _ _ Ed). pose proof (digit_range _ _ Ee).
  pose proof (digit_range _ _ Ea'). pose proof (digit_range _ _ Eb').
  pose proof (digit_range _ _ Ed'). pose proof (digit_range _ _ Ee').
  assert (a = a') by lia. assert (b = b') by lia.
  assert (d = d') by lia. assert (e = e') by lia. subst a' b' d' e'.
  rewrite (digit_inj _ _ _ Ea Ea'), (digit_inj _ _ _ Eb Eb'),
    (digit_inj _ _ _ Ed Ed'), (digit_inj _ _ _ Ee Ee').
  reflexivity.
Qed.

Lemma of_Z_small_inj (a b : Z) :
  (0 <= a < 4096)%Z -> (0 <= b < 4096)%Z ->
  Uint63.of_Z a = Uint63.of_Z b -> a = b.
Proof.
  intros Ha Hb E. rewrite <- (to_Z_of_Z_small a Ha), <- (to_Z_of_Z_small b Hb).
  rewrite E. reflexivity.
Qed.

Lemma zeroWhenEqual_checked : forallMinutes zeroWhenEqual = true.
Proof. vm_compute. reflexivity. Qed.

(** X2.  The available time is 0, not 24, exactly when the exam time is the
    current time. *)
Theorem availableHours_zero (current exam : string) :
  isHHMM current = true -> isHHMM exam = true ->
  exists now examHour,
    parseTime current = Some now
    /\ parseTime exam = Some examHour
    /\ (availableHours now examHour = 0 <-> current = exam).
Proof.
  intros Hc He.
  destruct (clockTimes_checked _ _ Hc He)
    as (now & examHour & Pc & Pe & _ & _ & Rc & Re & Checked).
  exists now, examHour. split; [exact Pc |]. split; [exact Pe |].
  specialize (Checked zeroWhenEqual zeroWhenEqual_checked).
  unfold zeroWhenEqual in Checked. cbn [fst snd] in Checked.
  apply eqb_prop in Checked.
  split.
  - intros Z. rewrite Z in Checked. cbn in Checked. symmetry in Checked.
    apply Uint63.eqb_correct in Checked.
    apply (minuteOfDay_inj _ _ Hc He).
    apply of_Z_small_inj; [lia | lia | exact Checked].
  - intros ->. rewrite Uint63.eqb_refl in Checked.
    apply feqb_eq. exact Checked.
Qed.

Lemma availableHours_zero_witness :
  exists now examHour,
    parseTime "09:00" = Some now
    /\ parseTime "09:00" = Some examHour
    /\ availableHours now examHour = 0.
Proof.
  destruct (availableHours_zero "09:00" "09:00" eq_refl eq_refl)
    as (now & examHour & Pn & Pe & H).
  exists now, examHour. split; [exact Pn |]. split; [exact Pe |].
  apply H. reflexivity.
Defined.

Lemma small_eqb (a b : Z) :
  (0 <= a < 4096)%Z -> (0 <= b < 4096)%Z ->
  (Uint63.of_Z a =? Uint63.of_Z b)%uint63 = (a =? b)%Z.
Proof.
  intros Ha Hb. destruct (Z.eqb_spec a b) as [-> | N].
  - apply Uint63.eqb_refl.
  - destruct (Uint63.eqbP (Uint63.of_Z a) (Uint63.of_Z b)) as [E | _];
      [| reflexivity].
    rewrite !to_Z_of_Z_small in E by assumption. contradiction.
Qed.

Lemma small_ltb (a b : Z) :
  (0 <= a < 4096)%Z -> (0 <= b < 4096)%Z ->
  (Uint63.of_Z a <? Uint63.of_Z b)%uint63 = (a <? b)%Z.
Proof.
  intros Ha Hb.
  destruct (Uint63.ltbP (Uint63.of_Z a) (Uint63.of_Z b)) as [L | L];
    rewrite !to_Z_of_Z_small in L by assumption; symmetry;
    [apply Z.ltb_lt | apply Z.ltb_ge]; lia.
Qed.

Lemma small_leb (a b : Z) :
  (0 <= a < 4096)%Z -> (0 <= b < 4096)%Z ->
  (Uint63.of_Z a <=? Uint63.of_Z b)%uint63 = (a <=? b)%Z.
Proof.
  intros Ha Hb.
  destruct (Uint63.lebP (Uint63.of_Z a) (Uint63.of_Z b)) as [L | L];
    rewrite !to_Z_of_Z_small in L by assumption; symmetry;
    [apply Z.leb_le | apply Z.leb_gt]; lia.
Qed.

(** What [agreesOff] says, on minutes and a breakpoint given as integers. *)
Lemma agreesOff_iff (test : bool) (minutes breakpoint : Z) :
  (0 <= minutes < 4096)%Z -> (0 <= breakpoint < 4096)%Z ->
  agreesOff test (Uint63.of_Z minutes) (Uint63.of_Z breakpoint) = true ->
  minutes <> breakpoint -> (test = true <-> (breakpoint < minutes)%Z).
Proof.
  intros Hm Hb. unfold agreesOff.
  rewrite small_eqb, small_ltb by assumption.
  intros H N. apply orb_true_iff in H. destruct H as [H | H].
  - apply Z.eqb_eq in H. contradiction.
  - apply eqb_prop in H. rewrite H. apply Z.ltb_lt.
Qed.

Lemma testsOffBreakpoints_checked : forallMinutes testsOffBreakpoints = true.
Proof. vm_compute. reflexivity. Qed.

(** X3.  The tests the engine makes on the available time agree with the
    exact count of minutes, unless the count is exactly the breakpoint of
    the test: 5 hours for the limited-time test, and 9, 7, 5 and 1 hours
    for the four tests of the sleep benefit of scenario 1.  At a breakpoint
    the rounding of [hours + minutes / 60] decides: seven hours before the
    exam, scenario 1 has its six hours of sleep from 22:00 to 05:00 and
    misses them from 01:10 to 08:10, where the result shows 6.9 available
    hours and a projected boost of 5 instead of 15. *)
Theorem tests_off_breakpoints :
  (forall current exam : string,
      isHHMM current = true -> isHHMM exam = true ->
      exists now examHour,
        parseTime current = Some now
        /\ parseTime exam = Some examHour
        /\ let minutes := ((minuteOfDay exam - minuteOfDay current) mod 1440)%Z in
           (minutes <> 300%Z ->
            (availableHours now examHour < 5 <-> (minutes < 300)%Z))
           /\ (minutes <> 540%Z ->
               (8 <= sleepHoursS1 now examHour <-> (540 < minutes)%Z))
           /\ (minutes <> 420%Z ->
               (6 <= sleepHoursS1 now examHour <-> (420 < minutes)%Z))
           /\ (minutes <> 300%Z ->
               (4 <= sleepHoursS1 now examHour <-> (300 < minutes)%Z))
           /\ (minutes <> 60%Z ->
               (0 < sleepHoursS1 now examHour <-> (60 < minutes)%Z)))
  /\ (exists now exam r now' exam' r',
         Runs sevenHoursEvening now exam r
         /\ Runs sevenHoursNight now' exam' r'
         /\ 6 <= sleepHoursS1 now exam
         /\ ~ 6 <= sleepHoursS1 now' exam'
         /\ Result.availableHours r = 7
         /\ Result.availableHours r' = 6.9
         /\ Result.projectedBoost r = 15
         /\ Result.projectedBoost r' = 5).
Proof.
  split.
  - intros current exam Hc He.
    destruct (clockTimes_checked _ _ Hc He)
      as (now & examHour & Pc & Pe & _ & _ & Rc & Re & Checked).
    exists now, examHour. split; [exact Pc |]. split; [exact Pe |].
    specialize (Checked testsOffBreakpoints testsOffBreakpoints_checked).
    unfold testsOffBreakpoints in Checked. cbn [fst snd] in Checked.
    rewrite (minutesBetween_mod _ _ Rc Re) in Checked.
    cbn zeta.
    assert (Hd : (0 <= (minuteOfDay exam - minuteOfDay current) mod 1440 < 1440)%Z)
      by (apply Z.mod_pos_bound; lia).
    revert Checked Hd.
    generalize ((minuteOfDay exam - minuteOfDay current) mod 1440)%Z.
    intros minutes Checked Hd.
    rewrite !andb_true_iff in Checked.
    destruct Checked as [[[[C5 C8] C6] C4] C0].
    split; [| split; [| split; [| split]]].
    + intros N.
      pose proof (agreesOff_iff _ minutes 300 ltac:(lia) ltac:(lia) C5 N) as E.
      rewrite negb_true_iff in E. unfold flt.
      destruct (availableHours now examHour <? 5).
      * split; [intros _ | reflexivity].
        destruct (Z.lt_ge_cases 300 minutes) as [L | L]; [| lia].
        apply E in L. discriminate L.
      * split; [discriminate |]. intros L. exfalso.
        assert (L' : ~ (300 < minutes)%Z) by lia. apply L', E. reflexivity.
    + intros N. exact (agreesOff_iff _ minutes 540 ltac:(lia) ltac:(lia) C8 N).
    + intros N. exact (agreesOff_iff _ minutes 420 ltac:(lia) ltac:(lia) C6 N).
    + intros N. exact (agreesOff_iff _ minutes 300 ltac:(lia) ltac:(lia) C4 N).
    + intros N. exact (agreesOff_iff _ minutes 60 ltac:(lia) ltac:(lia) C0 N).
  - exists (clock 22 0), (clock 5 0). eexists.
    exists (clock 1 10), (clock 8 10). eexists.
    split; [unfold Runs; repeat split; reflexivity |].
    split; [unfold Runs; repeat split; reflexivity |].
    split; [reflexivity |]. split; [intros H; discriminate H |].
    repeat split; reflexivity.
Qed.

Lemma tests_off_breakpoints_witness :
  exists now examHour,
    parseTime "22:00" = Some now
    /\ parseTime "07:30" = Some examHour
    /\ 8 <= sleepHoursS1 now examHour
    /\ ~ availableHours now examHour < 5.
Proof.
  destruct (proj1 tests_off_breakpoints "22:00" "07:30" eq_refl eq_refl)%string
    as (now & examHour & Pn & Pe & H5 & H8 & _).
  exists now, examHour. split; [exact Pn |]. split; [exact Pe |].
  split.
  - apply H8; [discriminate | reflexivity].
  - intros L. apply H5 in L; [discriminate L | discriminate].
Defined.

(** The same for a well-formed state, with the result object of the call. *)
Lemma wellFormed_checked (st : State) :
  wellFormed st = true ->
  exists now exam r,
    Runs st now exam r
    /\ In now clocks /\ In exam clocks
    /\ (0 <= minuteOfDay (currentTime st) < 1440)%Z
    /\ (0 <= minuteOfDay (examTime st) < 1440)%Z
    /\ forall check,
         forallMinutes check = true ->
         check (Uint63.of_Z (minuteOfDay (currentTime st)), now)
               (Uint63.of_Z (minuteOfDay (examTime st)), exam) = true.
Proof.
  intros WF. pose proof WF as WF'.
  unfold wellFormed in WF'. rewrite !andb_true_iff in WF'.
  destruct WF' as [[[[[[[Hc He] _] _] _] _] _] _].
  destruct (clockTimes_checked _ _ Hc He)
    as (now & exam & Pc & Pe & Hn & Hx & Rc & Re & Checked).
  exists now, exam. eexists.
  split; [| repeat split; try assumption; apply Rc || apply Re].
  unfold Runs. split; [exact Pc |]. split; [exact Pe |]. split; [reflexivity |].
  unfold calculateRecommendation. rewrite Pc, Pe. reflexivity.
Qed.

Lemma small_div (a : Z) :
  (0 <= a < 4096)%Z -> (Uint63.of_Z a / 6)%uint63 = Uint63.of_Z (a / 6).
Proof.
  intros Ha. apply Uint63.to_Z_inj.
  assert (0 <= a / 6 < 4096)%Z
    by (split; [apply Z.div_pos; lia | apply Z.div_lt_upper_bound; lia]).
  rewrite Uint63.div_spec, !to_Z_of_Z_small by assumption. reflexivity.
Qed.

Lemma small_mod (a : Z) :
  (0 <= a < 4096)%Z -> (Uint63.of_Z a mod 6)%uint63 = Uint63.of_Z (a mod 6).
Proof.
  intros Ha. apply Uint63.to_Z_inj.
  assert (0 <= a mod 6 < 6)%Z by (apply Z.mod_pos_bound; lia).
  rewrite Uint63.mod_spec, !to_Z_of_Z_small by lia. reflexivity.
Qed.

Lemma small_pred (a : Z) :
  (1 <= a < 4096)%Z -> (Uint63.of_Z a - 1)%uint63 = Uint63.of_Z (a - 1).
Proof.
  intros Ha. apply Uint63.to_Z_inj.
  rewrite Uint63.sub_spec, !to_Z_of_Z_small by lia.
  change (Uint63.to_Z 1) with 1%Z. apply Z.mod_small.
  change wB with 9223372036854775808%Z. lia.
Qed.

Lemma shownTenths_checked : forallMinutes shownTenths = true.
Proof. vm_compute. reflexivity. Qed.

(** X4.  The available time the result shows, [floor (x * 10) / 10], is the
    exact time truncated to tenths of an hour (6 minutes), or one tenth
    less; it can be one tenth less only when the exact time is a whole
    number of tenths.  From 01:10 to 08:10 it shows 6.9 for 7 hours. *)
Theorem shown_availableHours :
  (forall st : State,
      wellFormed st = true ->
      exists now exam r,
        Runs st now exam r
        /\ let minutes :=
             ((minuteOfDay (examTime st) - minuteOfDay (currentTime st))
                mod 1440)%Z in
           Result.availableHours r = ofZ (minutes / 6) / 10
           \/ ((minutes mod 6 = 0)%Z
               /\ Result.availableHours r = ofZ (minutes / 6 - 1) / 10))
  /\ (exists now exam r,
         Runs sevenHoursNight now exam r
         /\ Result.availableHours r = ofZ (420 / 6 - 1) / 10).
Proof.
  split.
  - intros st WF.
    destruct (wellFormed_checked st WF)
      as (now & exam & r & HR & _ & _ & Rc & Re & Checked).
    exists now, exam, r. split; [exact HR |].
    destruct HR as (_ & _ & -> & _). cbn [resultObject Result.availableHours].
    specialize (Checked shownTenths shownTenths_checked).
    unfold shownTenths in Checked. cbn [fst snd] in Checked.
    rewrite (minutesBetween_mod _ _ Rc Re) in Checked. cbn zeta.
    assert (Hd : (0 <= (minuteOfDay (examTime st) - minuteOfDay (currentTime st))
                        mod 1440 < 1440)%Z)
      by (apply Z.mod_pos_bound; lia).
    revert Checked Hd.
    generalize ((minuteOfDay (examTime st) - minuteOfDay (currentTime st))
                  mod 1440)%Z.
    intros minutes Checked Hd. cbn zeta in Checked.
    assert (H6 : (0 <= minutes / 6 < 4096)%Z)
      by (split; [apply Z.div_pos; lia | apply Z.div_lt_upper_bound; lia]).
    rewrite small_div, small_mod in Checked by lia.
    change 1%uint63 with (Uint63.of_Z 1) in Checked at 1.
    change 0%uint63 with (Uint63.of_Z 0) in Checked.
    assert (Hm : (0 <= minutes mod 6 < 6)%Z) by (apply Z.mod_pos_bound; lia).
    rewrite small_leb, small_eqb in Checked by lia.
    apply orb_true_iff in Checked. destruct Checked as [E | E].
    + left. apply feqb_eq in E. rewrite E. reflexivity.
    + right. rewrite !andb_true_iff in E. destruct E as [[L E] M].
      apply Z.leb_le in L. apply Z.eqb_eq in M. split; [exact M |].
      apply feqb_eq in E. rewrite E.
      change (Uint63.of_Z 1) with 1%uint63.
      rewrite small_pred by lia. reflexivity.
  - exists (clock 1 10), (clock 8 10). eexists.
    split; [unfold Runs; repeat split; reflexivity | reflexivity].
Qed.

Lemma shown_availableHours_witness :
  exists now exam r,
    Runs afternoon now exam r /\ Result.availableHours r = 8.5.
Proof.
  destruct (proj1 shown_availableHours afternoon eq_refl)
    as (now & exam & r & HR & H).
  exists now, exam, r. split; [exact HR |].
  destruct HR as (Pn & Pe & -> & _). parsed Pn. parsed Pe. reflexivity.
Defined.

Lemma lateMinutes_checked : lateMinutes = true.
Proof. vm_compute. reflexivity. Qed.

(** X5.  A clock time counts as late night, which halves the cognitive
    state, from 22:00 on and up to 04:00 included: 04:00 is late night and
    04:01 is not. *)
Theorem isLateNight_clock (current : string) :
  isHHMM current = true ->
  exists now,
    parseTime current = Some now
    /\ (isLateNight now = true
        <-> (1320 <= minuteOfDay current \/ minuteOfDay current <= 240)%Z).
Proof.
  intros Hc.
  destruct (parseTime_minuteOfDay _ Hc) as (h & m & Hh & Hm & Pc & Mc).
  exists (clock h m). split; [exact Pc |].
  pose proof lateMinutes_checked as Checked. unfold lateMinutes in Checked.
  rewrite forallb_forall in Checked.
  specialize (Checked _ (minuteTable_In h m Hh Hm)). cbn [fst snd] in Checked.
  apply eqb_prop in Checked. rewrite Checked, Mc.
  change 1320%uint63 with (Uint63.of_Z 1320).
  change 240%uint63 with (Uint63.of_Z 240).
  rewrite !small_leb by lia.
  rewrite orb_true_iff, !Z.leb_le. reflexivity.
Qed.

Lemma isLateNight_clock_witness :
  exists now later,
    parseTime "04:00" = Some now /\ isLateNight now = true
    /\ parseTime "04:01" = Some later /\ isLateNight later = false.
Proof.
  destruct (isLateNight_clock "04:00" eq_refl) as (now & Pn & H).
  exists now, (clock 4 1). split; [exact Pn |].
  split; [apply H; right; discriminate |].
  split; reflexivity.
Defined.

(** ** The two scenarios *)

Lemma hoursAddUp_checked : forallClocks hoursAddUp = true.
Proof. vm_compute. reflexivity. Qed.

Lemma sleepKept_checked : forallClocks sleepKept = true.
Proof. vm_compute. reflexivity. Qed.

Lemma scenariosCoincide_checked : forallClocks scenariosCoincide = true.
Proof. vm_compute. reflexivity. Qed.

(** X6.  The strategic split accounts for the whole available time: from
    one available hour on, study hours, sleep hours and the hour of routine
    add up to the available hours, exactly, and scenario 1 sleeps the
    available hours less one.  Below one hour both scenarios plan no sleep
    and no study. *)
Theorem scenario_hours_add_up (st : State) :
  wellFormed st = true ->
  exists now exam r,
    Runs st now exam r
    /\ (1 <= availableHours now exam ->
        studyHoursS2 now exam + sleepHoursS2 now exam + 1 = availableHours now exam
        /\ sleepHoursS1 now exam = availableHours now exam - 1)
    /\ (availableHours now exam < 1 ->
        sleepHoursS1 now exam = 0 /\ studyHoursS2 now exam = 0
        /\ sleepHoursS2 now exam = 0).
Proof.
  intros WF.
  destruct (wellFormed_Runs st WF) as (now & exam & r & HR & Hn & He).
  exists now, exam, r. split; [exact HR |].
  pose proof (forallClocks_In hoursAddUp _ _ hoursAddUp_checked Hn He) as C.
  unfold hoursAddUp in C. cbn zeta in C.
  split; intros H.
  - rewrite (fle_not_gt _ _ H), andb_true_iff in C.
    destruct C as [C1 C2]. split; apply feqb_eq; assumption.
  - rewrite H, !andb_true_iff in C.
    destruct C as [[C1 C2] C3]. repeat split; apply feqb_eq; assumption.
Qed.

Lemma scenario_hours_add_up_witness :
  exists now exam r,
    Runs afternoon now exam r
    /\ studyHoursS2 now exam = 1.5
    /\ sleepHoursS2 now exam = 6
    /\ studyHoursS2 now exam + sleepHoursS2 now exam + 1 = availableHours now exam.
Proof.
  destruct (scenario_hours_add_up afternoon eq_refl)
    as (now & exam & r & HR & H & _).
  exists now, exam, r. split; [exact HR |].
  destruct HR as (Pn & Pe & _). parsed Pn. parsed Pe.
  split; [reflexivity |]. split; [reflexivity |].
  apply H. reflexivity.
Defined.

(** X7.  The strategic split plans study only with at least six hours of
    sleep left.  A StrategicCram result leaves at least four hours of
    sleep, so its sleep benefit is never a penalty: it is at least 5, and
    so is the projected boost. *)
Theorem strategic_split_keeps_sleep (st : State) :
  wellFormed st = true ->
  exists now exam r,
    Runs st now exam r
    /\ (0 < studyHoursS2 now exam -> 6 <= sleepHoursS2 now exam)
    /\ (Result.decision r = strategic_cram ->
        4 <= sleepHoursS2 now exam
        /\ 5 <= Result.sleepBenefitS2 r
        /\ 5 <= Result.projectedBoost r).
Proof.
  intros WF.
  destruct (wellFormed_Runs st WF) as (now & exam & r & HR & Hn & He).
  exists now, exam, r. split; [exact HR |].
  pose proof (forallClocks_In sleepKept _ _ sleepKept_checked Hn He) as C.
  unfold sleepKept in C. rewrite andb_true_iff, !orb_true_iff in C.
  destruct C as [C6 C4].
  split.
  - intros H. destruct C6 as [C6 | C6]; [| exact C6].
    rewrite H in C6. discriminate C6.
  - destruct HR as (_ & _ & -> & _).
    cbn [resultObject Result.decision Result.projectedBoost Result.sleepBenefitS2].
    rewrite decision_verdict, projectedBoost_verdict.
    destruct (scenario1Wins _ _ _ _ _) eqn:E; [discriminate |]. intros _.
    unfold scenario1Wins in E. apply orb_false_iff in E. destruct E as [E _].
    destruct C4 as [C4 | C4]; [rewrite C4 in E; discriminate E |].
    split; [exact C4 |].
    unfold boostS2, cramBenefitS2, sleepBenefitS2, getSleepBenefit, getCramBenefit,
      cognitiveStateFactor, fatigueFactor, timeFactor, optimalSleep, minSleepNeeded.
    revert C4.
    generalize (sleepHoursS2 now exam) (studyHoursS2 now exam).
    generalize (lowConfidence (confidence st) (quizAnswers st))
      (highConfidence (confidence st) (quizAnswers st)) (isLateNight now).
    intros low high late s h C4. unfold fle in C4. rewrite C4. cbn zeta.
    split; split_ifs; reflexivity.
Qed.

Lemma strategic_split_keeps_sleep_witness :
  exists now exam r,
    Runs afternoon now exam r
    /\ Result.decision r = strategic_cram
    /\ 0 < studyHoursS2 now exam
    /\ 6 <= sleepHoursS2 now exam
    /\ 5 <= Result.projectedBoost r.
Proof.
  destruct (strategic_split_keeps_sleep afternoon eq_refl)
    as (now & exam & r & HR & H6 & H4).
  exists now, exam, r. split; [exact HR |].
  destruct HR as (Pn & Pe & Hr & _). parsed Pn. parsed Pe.
  assert (D : Result.decision r = strategic_cram) by (rewrite Hr; reflexivity).
  split; [exact D |].
  assert (S : 0 < studyHoursS2 12 20.5) by reflexivity.
  split; [exact S |]. split; [exact (H6 S) |]. apply (H4 D).
Defined.

(** ** The choice between the scenarios *)

Lemma flt_irrefl (x : float) : (x <? x) = false.
Proof.
  rewrite FloatAxioms.ltb_spec. generalize (Prim2SF x). intros s. sf_order.
Qed.

(** No study gives no cram benefit, whatever the cognitive state and the
    confidence are. *)
Lemma getCramBenefit_zero (now hs c : float) (q : QuizAnswers) :
  getCramBenefit now hs c q 0 = 0.
Proof.
  unfold getCramBenefit, cognitiveStateFactor, fatigueFactor, timeFactor.
  change (0 >=? 1) with false. change (0 >=? 2) with false.
  change (0 >=? 3) with false. cbv beta iota zeta.
  generalize (lowConfidence c q) (highConfidence c q) (isLateNight now).
  intros low high late.
  split_ifs; reflexivity.
Qed.

(** With no study and the same sleep the two scenarios have the same
    boost. *)
Lemma scenarios_tie (now exam hs c : float) (q : QuizAnswers) :
  studyHoursS2 now exam = 0 ->
  sleepHoursS2 now exam = sleepHoursS1 now exam ->
  boostS2 now exam hs c q = boostS1 now exam.
Proof.
  intros H0 Hs.
  unfold boostS2, cramBenefitS2, sleepBenefitS2, boostS1.
  rewrite H0, Hs, getCramBenefit_zero.
  unfold getSleepBenefit. split_ifs; reflexivity.
Qed.

(** The two boosts take finitely many values, and at each of them the
    comparison of line 113 orders the boosts and their rounded values. *)
Lemma boosts_compared (now exam hs c : float) (q : QuizAnswers) :
  let b1 := boostS1 now exam in
  let b2 := boostS2 now exam hs c q in
  ((b1 >? b2) = true ->
   b2 <= b1 /\ abs (Math_round b1 - Math_round b2) = Math_round b1 - Math_round b2)
  /\ ((b1 >? b2) = false ->
      b1 <= b2 /\ abs (Math_round b1 - Math_round b2) = Math_round b2 - Math_round b1)
  /\ 0 <= abs (Math_round b1 - Math_round b2).
Proof.
  unfold boostS1, boostS2, cramBenefitS2, sleepBenefitS2, getSleepBenefit,
    getCramBenefit, cognitiveStateFactor, fatigueFactor, timeFactor, fle.
  generalize (sleepHoursS1 now exam) (sleepHoursS2 now exam) (studyHoursS2 now exam).
  generalize (lowConfidence c q) (highConfidence c q) (isLateNight now).
  intros low high late s1 s2 h. cbn zeta.
  split_ifs; vm_compute;
    (split; [| split; [| reflexivity]];
     intros H; first [discriminate H | split; reflexivity]).
Qed.

Lemma scenarios_tie_below_six (now exam hs c : float) (q : QuizAnswers) :
  In now clocks -> In exam clocks ->
  (6 <=? sleepHoursS1 now exam) = false ->
  studyHoursS2 now exam = 0
  /\ sleepHoursS2 now exam = sleepHoursS1 now exam
  /\ boostS2 now exam hs c q = boostS1 now exam.
Proof.
  intros Hn He H6.
  pose proof (forallClocks_In scenariosCoincide _ _ scenariosCoincide_checked Hn He) as C.
  unfold scenariosCoincide in C. cbn zeta in C.
  rewrite H6 in C. cbn [orb] in C. rewrite !andb_true_iff in C.
  destruct C as [[[[C0 Cs] _] _] _].
  apply feqb_eq in C0. apply feqb_eq in Cs.
  split; [exact C0 |]. split; [exact Cs |].
  apply scenarios_tie; assumption.
Qed.

Lemma sleepHoursS1_by_availableHours (now exam : float) :
  In now clocks -> In exam clocks ->
  (availableHours now exam < 5 -> sleepHoursS1 now exam < 4)
  /\ (availableHours now exam < 7 -> sleepHoursS1 now exam < 6)
  /\ (5 <= availableHours now exam -> 4 <= sleepHoursS1 now exam).
Proof.
  intros Hn He.
  pose proof (forallClocks_In scenariosCoincide _ _ scenariosCoincide_checked Hn He) as C.
  unfold scenariosCoincide in C. cbn zeta in C.
  rewrite !andb_true_iff in C. destruct C as [[[_ C5] C7] C4].
  repeat split; intros H; unfold flt, fle in H; rewrite H in *; assumption.
Qed.

(** Scenario 1 is ahead only with six hours of sleep, so the second test
    of line 113 follows from the first. *)
Lemma ahead_with_six_hours (now exam hs c : float) (q : QuizAnswers) :
  In now clocks -> In exam clocks ->
  boostS2 now exam hs c q < boostS1 now exam -> 6 <= sleepHoursS1 now exam.
Proof.
  intros Hn He H. unfold fle.
  destruct (6 <=? sleepHoursS1 now exam) eqn:E6; [reflexivity |].
  destruct (scenarios_tie_below_six now exam hs c q Hn He E6) as (_ & _ & E).
  unfold flt in H. rewrite E, flt_irrefl in H. discriminate H.
Qed.

Lemma scenario1Wins_clock (now exam hs c : float) (q : QuizAnswers) :
  In now clocks -> In exam clocks ->
  scenario1Wins now exam hs c q = true <->
  availableHours now exam < 5 \/ boostS2 now exam hs c q < boostS1 now exam.
Proof.
  intros Hn He. rewrite scenario1Wins_true.
  split; intros [H | H];
    [left; exact H | right; apply H | left; exact H
    | right; split; [exact H | exact (ahead_with_six_hours _ _ _ _ _ Hn He H)]].
Qed.

(** X8.  The chosen scenario is never the worse one: a Sleep result has
    [boostS2 <= boostS1] and a StrategicCram result [boostS1 <= boostS2].
    The second test of line 113, [sleepHoursS1 >= 6], never changes the
    outcome: whenever [boostS1 > boostS2], scenario 1 has its six hours of
    sleep, so the decision is Sleep exactly when [availableHours < 5] or
    [boostS1 > boostS2]. *)
Theorem chosen_scenario_is_best (st : State) :
  wellFormed st = true ->
  exists now exam r,
    Runs st now exam r
    /\ let b1 := boostS1 now exam in
       let b2 := boostS2 now exam (hoursStudied st) (confidence st) (quizAnswers st) in
       (Result.decision r = sleep -> b2 <= b1)
       /\ (Result.decision r = strategic_cram -> b1 <= b2)
       /\ (b2 < b1 -> 6 <= sleepHoursS1 now exam)
       /\ (Result.decision r = sleep <-> availableHours now exam < 5 \/ b2 < b1).
Proof.
  intros WF.
  destruct (wellFormed_Runs st WF) as (now & exam & r & HR & Hn & He).
  exists now, exam, r. split; [exact HR |].
  destruct HR as (_ & _ & -> & _).
  cbn [resultObject Result.decision]. rewrite decision_verdict.
  set (hs := hoursStudied st). set (c := confidence st). set (q := quizAnswers st).
  pose proof (boosts_compared now exam hs c q) as B.
  pose proof (scenarios_tie_below_six now exam hs c q Hn He) as T.
  pose proof (sleepHoursS1_by_availableHours now exam Hn He) as (L5 & _ & _).
  cbn zeta in *.
  pose proof (ahead_with_six_hours now exam hs c q Hn He) as G.
  pose proof (scenario1Wins_clock now exam hs c q Hn He) as S.
  destruct B as (Bt & Bf & _).
  repeat split.
  - destruct (scenario1Wins now exam hs c q) eqn:W; [| discriminate]. intros _.
    destruct (proj1 S eq_refl) as [W' | W'].
    + destruct (T (below_not_ge _ 4 6 (L5 W') eq_refl)) as (_ & _ & E).
      rewrite E in *. apply Bf, flt_irrefl.
    + apply Bt, W'.
  - destruct (scenario1Wins now exam hs c q) eqn:W; [discriminate |]. intros _.
    destruct (boostS1 now exam >? boostS2 now exam hs c q) eqn:E;
      [| apply Bf; reflexivity].
    discriminate (proj2 S (or_intror E)).
  - exact G.
  - destruct (scenario1Wins now exam hs c q); [intros _; apply S; reflexivity | discriminate].
  - intros H. apply S in H. rewrite H. reflexivity.
Qed.

Lemma chosen_scenario_is_best_witness :
  exists now exam r,
    Runs tiredNight now exam r
    /\ Result.decision r = sleep
    /\ boostS2 now exam 5 50 {| q1 := 33; q2 := 33; q3 := 0 |} <= boostS1 now exam.
Proof.
  destruct (chosen_scenario_is_best tiredNight eq_refl)
    as (now & exam & r & HR & H & _).
  exists now, exam, r. split; [exact HR |].
  destruct HR as (Pn & Pe & Hr & _). parsed Pn. parsed Pe.
  assert (D : Result.decision r = sleep) by (rewrite Hr; vm_compute; reflexivity).
  split; [exact D |]. exact (H D).
Defined.

(** ** Short nights *)

Lemma getSleepBenefit_minimal (sleepHours : float) :
  4 <= sleepHours -> sleepHours < 6 -> getSleepBenefit sleepHours = 5.
Proof.
  intros H4 H6. unfold getSleepBenefit, optimalSleep, minSleepNeeded.
  rewrite (below_not_ge _ 6 8 H6 eq_refl), (flt_not_ge _ _ H6).
  unfold fle in H4. rewrite H4. reflexivity.
Qed.

Lemma getSleepBenefit_deprived (sleepHours : float) :
  sleepHours < 4 ->
  getSleepBenefit sleepHours = -25 \/ getSleepBenefit sleepHours = -40.
Proof.
  intros H4. unfold getSleepBenefit, optimalSleep, minSleepNeeded.
  rewrite (below_not_ge _ 4 8 H4 eq_refl), (below_not_ge _ 4 6 H4 eq_refl),
    (flt_not_ge _ _ H4).
  destruct (sleepHours >? 0); [left | right]; reflexivity.
Qed.

(** X9.  From five to less than seven available hours the two scenarios
    coincide: the strategic split has no room for study, both boosts are 5,
    and since [boostS1 > boostS2] fails the result is StrategicCram with
    zero study hours, a projected boost of 5 and a plan that starts with
    "Study for 0 hours". *)
Theorem strategic_cram_without_study (st : State) :
  wellFormed st = true ->
  exists now exam r,
    Runs st now exam r
    /\ (5 <= availableHours now exam -> availableHours now exam < 7 ->
        Result.decision r = strategic_cram
        /\ Result.effectiveStudyHours r = 0
        /\ Result.boostS1 r = 5 /\ Result.boostS2 r = 5
        /\ Result.cramBenefitS2 r = 0
        /\ Result.projectedBoost r = 5
        /\ hd_error (Result.actionPlan r)
           = Some "Study for 0 hours. Focus ONLY on high-value/low-confidence topics."%string).
Proof.
  intros WF.
  destruct (wellFormed_Runs st WF) as (now & exam & r & HR & Hn & He).
  exists now, exam, r. split; [exact HR |].
  destruct HR as (_ & _ & -> & _).
  set (hs := hoursStudied st). set (c := confidence st). set (q := quizAnswers st).
  intros H5 H7.
  destruct (sleepHoursS1_by_availableHours now exam Hn He) as (_ & L7 & L4).
  specialize (L7 H7). specialize (L4 H5).
  destruct (scenarios_tie_below_six now exam hs c q Hn He (flt_not_ge _ _ L7))
    as (E0 & Es & Eb).
  assert (B1 : boostS1 now exam = 5)
    by (unfold boostS1; apply getSleepBenefit_minimal; assumption).
  assert (W : scenario1Wins now exam hs c q = false).
  { unfold scenario1Wins. rewrite (fle_not_gt _ _ H5), Eb, flt_irrefl. reflexivity. }
  cbn [resultObject Result.decision Result.effectiveStudyHours Result.boostS1
       Result.boostS2 Result.cramBenefitS2 Result.projectedBoost Result.actionPlan].
  rewrite decision_verdict, projectedBoost_verdict, W, Eb, B1.
  unfold cramBenefitS2. rewrite E0, getCramBenefit_zero.
  repeat (split; [reflexivity |]).
  unfold verdict. rewrite W. cbn [actionPlan hd_error]. rewrite E0.
  vm_compute. reflexivity.
Qed.

Lemma strategic_cram_without_study_witness :
  exists now exam r,
    Runs sevenHoursNight now exam r
    /\ Result.decision r = strategic_cram
    /\ Result.effectiveStudyHours r = 0
    /\ Result.projectedBoost r = 5.
Proof.
  destruct (strategic_cram_without_study sevenHoursNight eq_refl)
    as (now & exam & r & HR & H).
  exists now, exam, r. split; [exact HR |].
  destruct HR as (Pn & Pe & _). parsed Pn. parsed Pe.
  destruct H as (D & E & _ & _ & _ & P & _);
    [vm_compute; reflexivity | vm_compute; reflexivity |].
  repeat split; assumption.
Defined.

(** X10.  Below five available hours neither scenario has any benefit to
    show: scenario 1 sleeps less than four hours, scenario 2 is the same
    plan, and both boosts are the same penalty, -25 or -40.  The result is
    Sleep with a projected boost of 0 and no study. *)
Theorem short_night_has_no_boost (st : State) :
  wellFormed st = true ->
  exists now exam r,
    Runs st now exam r
    /\ (availableHours now exam < 5 ->
        Result.decision r = sleep
        /\ Result.projectedBoost r = 0
        /\ Result.effectiveStudyHours r = 0
        /\ Result.boostS2 r = Result.boostS1 r
        /\ (Result.boostS1 r = -25 \/ Result.boostS1 r = -40)).
Proof.
  intros WF.
  destruct (wellFormed_Runs st WF) as (now & exam & r & HR & Hn & He).
  exists now, exam, r. split; [exact HR |].
  destruct HR as (_ & _ & -> & _).
  set (hs := hoursStudied st). set (c := confidence st). set (q := quizAnswers st).
  intros H5.
  destruct (sleepHoursS1_by_availableHours now exam Hn He) as (L4 & _ & _).
  specialize (L4 H5).
  destruct (scenarios_tie_below_six now exam hs c q Hn He (below_not_ge _ 4 6 L4 eq_refl))
    as (_ & _ & Eb).
  assert (W : scenario1Wins now exam hs c q = true)
    by (apply scenario1Wins_true; left; exact H5).
  cbn [resultObject Result.decision Result.effectiveStudyHours Result.boostS1
       Result.boostS2 Result.projectedBoost].
  rewrite decision_verdict, projectedBoost_verdict, W, Eb.
  unfold boostS1.
  destruct (getSleepBenefit_deprived _ L4) as [-> | ->];
    repeat split; try reflexivity; [left | right]; reflexivity.
Qed.

Lemma short_night_has_no_boost_witness :
  exists now exam r,
    Runs shortNight now exam r
    /\ Result.decision r = sleep
    /\ Result.projectedBoost r = 0
    /\ Result.boostS1 r = -25.
Proof.
  destruct (short_night_has_no_boost shortNight eq_refl)
    as (now & exam & r & HR & H).
  exists now, exam, r. split; [exact HR |].
  destruct HR as (Pn & Pe & Hr & _). parsed Pn. parsed Pe.
  destruct H as (D & P & _); [vm_compute; reflexivity |].
  split; [exact D |]. split; [exact P |].
  rewrite Hr. vm_compute. reflexivity.
Defined.

(** X11.  The percentage of "The chosen plan provides a ...% higher
    projected score boost", [Math.abs(result.boostS1 - result.boostS2)], is
    the rounded boost of the chosen scenario less that of the other one.
    It is never negative, and it is 0 below seven available hours. *)
Theorem boostGap_of_chosen_plan (st : State) :
  wellFormed st = true ->
  exists now exam r,
    Runs st now exam r
    /\ (Result.decision r = sleep ->
        boostGap r = Result.boostS1 r - Result.boostS2 r)
    /\ (Result.decision r = strategic_cram ->
        boostGap r = Result.boostS2 r - Result.boostS1 r)
    /\ 0 <= boostGap r
    /\ (availableHours now exam < 7 -> boostGap r = 0).
Proof.
  intros WF.
  destruct (wellFormed_Runs st WF) as (now & exam & r & HR & Hn & He).
  exists now, exam, r. split; [exact HR |].
  destruct HR as (_ & _ & -> & _).
  set (hs := hoursStudied st). set (c := confidence st). set (q := quizAnswers st).
  unfold boostGap.
  cbn [resultObject Result.decision Result.boostS1 Result.boostS2].
  rewrite decision_verdict.
  pose proof (boosts_compared now exam hs c q) as (Bt & Bf & B0). cbn zeta in *.
  pose proof (scenario1Wins_clock now exam hs c q Hn He) as S.
  destruct (sleepHoursS1_by_availableHours now exam Hn He) as (L4 & L7 & _).
  assert (T : sleepHoursS1 now exam < 6 ->
              boostS2 now exam hs c q = boostS1 now exam).
  { intros H. apply (scenarios_tie_below_six now exam hs c q Hn He (flt_not_ge _ _ H)). }
  repeat split.
  - destruct (scenario1Wins now exam hs c q) eqn:W; [| discriminate]. intros _.
    destruct (proj1 S eq_refl) as [W' | W'].
    + rewrite (T (flt_le_trans _ 4 6 (L4 W') eq_refl)) in *.
      apply Bf, flt_irrefl.
    + apply Bt, W'.
  - destruct (scenario1Wins now exam hs c q) eqn:W; [discriminate |]. intros _.
    destruct (boostS1 now exam >? boostS2 now exam hs c q) eqn:E;
      [| apply Bf; reflexivity].
    discriminate (proj2 S (or_intror E)).
  - exact B0.
  - intros H7. rewrite (T (L7 H7)).
    unfold boostS1, getSleepBenefit. split_ifs; reflexivity.
Qed.

Lemma boostGap_of_chosen_plan_witness :
  exists now exam r,
    Runs tiredNight now exam r
    /\ Result.decision r = sleep
    /\ boostGap r = Result.boostS1 r - Result.boostS2 r
    /\ boostGap r = 4.
Proof.
  destruct (boostGap_of_chosen_plan tiredNight eq_refl)
    as (now & exam & r & HR & H & _).
  exists now, exam, r. split; [exact HR |].
  destruct HR as (Pn & Pe & Hr & _). parsed Pn. parsed Pe.
  assert (D : Result.decision r = sleep) by (rewrite Hr; vm_compute; reflexivity).
  split; [exact D |]. split; [exact (H D) |].
  rewrite Hr. vm_compute. reflexivity.
Defined.

(** ** The two benefit functions *)

Lemma SFleb_trans (x a b : spec_float) :
  SFleb x a = true -> SFleb a b = true -> SFleb x b = true.
Proof. sf_order. Qed.

Lemma SFltb_leb (x y : spec_float) : SFltb x y = true -> SFleb x y = true.
Proof. sf_order. Qed.

Lemma fle_trans (x a b : float) : x <= a -> a <= b -> x <= b.
Proof.
  unfold fle. rewrite !FloatAxioms.leb_spec. apply SFleb_trans.
Qed.

Lemma flt_le (x y : float) : x < y -> x <= y.
Proof.
  unfold flt, fle. rewrite FloatAxioms.ltb_spec, FloatAxioms.leb_spec.
  apply SFltb_leb.
Qed.

(** X12.  More sleep never lowers the sleep benefit: [getSleepBenefit] is
    monotone, and its values lie between -40 and 25. *)
Theorem getSleepBenefit_monotone (s t : float) :
  s <= t ->
  -40 <= getSleepBenefit s
  /\ getSleepBenefit s <= getSleepBenefit t
  /\ getSleepBenefit t <= 25.
Proof.
  intros H.
  assert (A8 : (s >=? 8) = true -> (t >=? 8) = true)
    by (intros A; exact (fle_trans _ _ _ A H)).
  assert (A6 : (s >=? 6) = true -> (t >=? 6) = true)
    by (intros A; exact (fle_trans _ _ _ A H)).
  assert (A4 : (s >=? 4) = true -> (t >=? 4) = true)
    by (intros A; exact (fle_trans _ _ _ A H)).
  assert (A0 : (s >? 0) = true -> (t >? 0) = true)
    by (intros A; exact (flt_le_trans _ _ _ A H)).
  unfold getSleepBenefit, optimalSleep, minSleepNeeded.
  destruct (s >=? 8); [rewrite (A8 eq_refl); repeat split; reflexivity |].
  destruct (s >=? 6); [rewrite (A6 eq_refl); split_ifs; repeat split; reflexivity |].
  destruct (s >=? 4); [rewrite (A4 eq_refl); split_ifs; repeat split; reflexivity |].
  destruct (s >? 0); [rewrite (A0 eq_refl) |]; split_ifs; repeat split; reflexivity.
Qed.

Lemma getSleepBenefit_monotone_witness :
  getSleepBenefit 5.5 <= getSleepBenefit 6 /\ getSleepBenefit 6 = 15.
Proof.
  split; [| reflexivity].
  apply (getSleepBenefit_monotone 5.5 6). reflexivity.
Defined.

(** X13.  More study never lowers the cram benefit: whatever the time of
    day, the hours studied, the slider and the quiz answers are,
    [getCramBenefit] is monotone in the hours, and its values lie between 0
    and 50. *)
Theorem getCramBenefit_monotone
  (now hoursStudied confidence : float) (quizAnswers : QuizAnswers)
  (h1 h2 : float) :
  h1 <= h2 ->
  let cram := getCramBenefit now hoursStudied confidence quizAnswers in
  0 <= cram h1 /\ cram h1 <= cram h2 /\ cram h2 <= 50.
Proof.
  intros H.
  assert (A1 : (h1 >=? 1) = true -> (h2 >=? 1) = true)
    by (intros A; exact (fle_trans _ _ _ A H)).
  assert (A2 : (h1 >=? 2) = true -> (h2 >=? 2) = true)
    by (intros A; exact (fle_trans _ _ _ A H)).
  assert (A3 : (h1 >=? 3) = true -> (h2 >=? 3) = true)
    by (intros A; exact (fle_trans _ _ _ A H)).
  unfold getCramBenefit, cognitiveStateFactor, fatigueFactor, timeFactor.
  generalize (lowConfidence confidence quizAnswers)
    (highConfidence confidence quizAnswers) (isLateNight now).
  intros low high late. cbn zeta.
  destruct (h1 >=? 1); [rewrite (A1 eq_refl) |];
    (destruct (h1 >=? 2); [rewrite (A2 eq_refl) |]);
    (destruct (h1 >=? 3); [rewrite (A3 eq_refl) |]);
    split_ifs; repeat split; reflexivity.
Qed.

Lemma getCramBenefit_monotone_witness :
  getCramBenefit 12 0 50 neutralAnswers 1.5 <= getCramBenefit 12 0 50 neutralAnswers 2
  /\ getCramBenefit 12 0 50 neutralAnswers 2 = 32.
Proof.
  split; [| reflexivity].
  apply (getCramBenefit_monotone 12 0 50 neutralAnswers 1.5 2). reflexivity.
Defined.



(** ** The hours field *)

Lemma SFltb_not_nan (x y : spec_float) :
  SFltb x y = true -> negb (SFeqb y y) = false.
Proof. sf_order. Qed.

Lemma positive_not_nan (y : float) : 0 < y -> is_nan y = false.
Proof.
  unfold flt, is_nan. rewrite FloatAxioms.ltb_spec, FloatAxioms.eqb_spec.
  apply SFltb_not_nan.
Qed.

Lemma positive_not_zero (y : float) : 0 < y -> PrimFloat.is_zero y = false.
Proof.
  unfold flt, PrimFloat.is_zero.
  rewrite FloatAxioms.ltb_spec, FloatAxioms.eqb_spec.
  change (Prim2SF 0) with (S754_zero false).
  generalize (Prim2SF y). intros s. sf_order.
Qed.

Lemma hours_stored_nonnegative (parsed : float) :
  0 <= Math_max 0 (js_or parsed 0).
Proof.
  unfold js_or, Math_max.
  destruct (is_nan parsed) eqn:N; [reflexivity |].
  destruct (PrimFloat.is_zero parsed); [reflexivity |]. cbn [orb].
  change (is_nan 0) with false. rewrite N. cbn [orb].
  destruct (0 <? parsed) eqn:P; [exact (flt_le _ _ P) |].
  destruct (parsed <? 0); reflexivity.
Qed.

(** X15.  Whatever [parseInt] returns for the text of the hours field, the
    number stored is not [NaN] and not negative: a positive number is
    stored as it is, and [NaN], a zero and every negative number are stored
    as 0.  The other cells are left as they were. *)
Theorem onHoursChange_stores_nonnegative (parsed : float) (st : State) :
  let st' := onHoursChange parsed st in
  0 <= hoursStudied st'
  /\ (0 < parsed -> hoursStudied st' = parsed)
  /\ ((0 <? parsed) = false -> hoursStudied st' = 0)
  /\ setHoursStudied (hoursStudied st) st' = st.
Proof.
  cbn zeta. unfold onHoursChange. cbn [setHoursStudied hoursStudied].
  split; [| split; [| split]].
  - apply hours_stored_nonnegative.
  - intros P. unfold js_or, Math_max.
    rewrite (positive_not_nan _ P), (positive_not_zero _ P). cbn [orb].
    change (is_nan 0) with false. rewrite (positive_not_nan _ P). cbn [orb].
    unfold flt in P. rewrite P. reflexivity.
  - intros P. unfold js_or, Math_max.
    destruct (is_nan parsed) eqn:N; [reflexivity |].
    destruct (PrimFloat.is_zero parsed); [reflexivity |]. cbn [orb].
    change (is_nan 0) with false. rewrite N, P. cbn [orb].
    destruct (parsed <? 0); reflexivity.
  - destruct st. reflexivity.
Qed.

Lemma onHoursChange_stores_nonnegative_witness :
  hoursStudied (onHoursChange 3 initialState) = 3
  /\ hoursStudied (onHoursChange (-2) initialState) = 0
  /\ hoursStudied (onHoursChange nan initialState) = 0.
Proof.
  destruct (onHoursChange_stores_nonnegative 3 initialState) as (_ & H & _).
  split; [apply H; reflexivity |].
  split; reflexivity.
Defined.

(** ** When the engine recommends sleep *)

Lemma decisionBands_checked : forallClocks decisionBands = true.
Proof. vm_compute. reflexivity. Qed.

Lemma not_below (a x y : float) : y <= a -> x <= y -> (a <? x) = false.
Proof.
  intros Hy Hx. destruct (a <? x) eqn:E; [| reflexivity].
  unfold fle in Hy. rewrite (flt_not_ge _ _ (flt_le_trans _ _ _ E Hx)) in Hy. discriminate Hy.
Qed.

(** With six to eight hours of sleep in scenario 1 and six hours in
    scenario 2, scenario 1 is not ahead. *)
Lemma adequate_sleep_both (now exam hs c : float) (q : QuizAnswers) :
  6 <= sleepHoursS1 now exam -> sleepHoursS1 now exam < 8 ->
  6 <= sleepHoursS2 now exam ->
  (boostS1 now exam >? boostS2 now exam hs c q) = false.
Proof.
  unfold boostS1, boostS2, cramBenefitS2, sleepBenefitS2, getSleepBenefit,
    getCramBenefit, cognitiveStateFactor, fatigueFactor, timeFactor,
    optimalSleep, minSleepNeeded.
  generalize (sleepHoursS1 now exam) (sleepHoursS2 now exam) (studyHoursS2 now exam).
  generalize (lowConfidence c q) (highConfidence c q) (isLateNight now).
  intros low high late s1 s2 h A6 A8 B6. cbn zeta.
  rewrite (flt_not_ge _ _ A8). unfold fle in A6, B6. rewrite A6, B6.
  split_ifs; reflexivity.
Qed.

(** With optimal sleep in scenario 1 and adequate sleep in scenario 2,
    scenario 1 is ahead exactly when the cram benefit is below 10. *)
Lemma optimal_against_adequate (now exam hs c : float) (q : QuizAnswers) :
  8 <= sleepHoursS1 now exam ->
  6 <= sleepHoursS2 now exam -> sleepHoursS2 now exam < 8 ->
  (boostS1 now exam >? boostS2 now exam hs c q)
  = (cramBenefitS2 now exam hs c q <? 10).
Proof.
  unfold boostS1, boostS2, cramBenefitS2, sleepBenefitS2, getSleepBenefit,
    getCramBenefit, cognitiveStateFactor, fatigueFactor, timeFactor,
    optimalSleep, minSleepNeeded.
  generalize (sleepHoursS1 now exam) (sleepHoursS2 now exam) (studyHoursS2 now exam).
  generalize (lowConfidence c q) (highConfidence c q) (isLateNight now).
  intros low high late s1 s2 h A8 B6 B8. cbn zeta.
  rewrite (flt_not_ge _ _ B8). unfold fle in A8, B6. rewrite A8, B6.
  split_ifs; reflexivity.
Qed.

(** With optimal sleep in both scenarios and three hours of study,
    scenario 1 is not ahead. *)
Lemma optimal_sleep_both (now exam hs c : float) (q : QuizAnswers) :
  8 <= sleepHoursS1 now exam -> 8 <= sleepHoursS2 now exam ->
  studyHoursS2 now exam = 3 ->
  (boostS1 now exam >? boostS2 now exam hs c q) = false.
Proof.
  unfold boostS1, boostS2, cramBenefitS2, sleepBenefitS2, getSleepBenefit,
    getCramBenefit, cognitiveStateFactor, fatigueFactor, timeFactor,
    optimalSleep, minSleepNeeded.
  intros A8 B8 ->. revert A8 B8.
  generalize (sleepHoursS1 now exam) (sleepHoursS2 now exam).
  generalize (lowConfidence c q) (highConfidence c q) (isLateNight now).
  intros low high late s1 s2 A8 B8. cbn zeta.
  unfold fle in A8, B8. rewrite A8, B8.
  change (3 >=? 1) with true. change (3 >=? 2) with true.
  change (3 >=? 3) with true. cbv iota.
  split_ifs; reflexivity.
Qed.

(** Scenario 1 wins below five hours, and from nine to less than twelve
    hours when the cram benefit is below 10. *)
Lemma scenario1Wins_bands (now exam hs c : float) (q : QuizAnswers) :
  In now clocks -> In exam clocks ->
  scenario1Wins now exam hs c q = true <->
  availableHours now exam < 5
  \/ (9 <= availableHours now exam < 12 /\ cramBenefitS2 now exam hs c q < 10).
Proof.
  intros Hn He.
  pose proof (forallClocks_In decisionBands _ _ decisionBands_checked Hn He) as C.
  unfold decisionBands in C. cbn zeta in C.
  pose proof (scenario1Wins_clock now exam hs c q Hn He) as S.
  destruct (sleepHoursS1_by_availableHours now exam Hn He) as (_ & L7 & _).
  pose proof (scenarios_tie_below_six now exam hs c q Hn He) as T.
  rewrite S. split.
  - intros [H | H]; [left; exact H |].
    destruct (availableHours now exam <? 5) eqn:E5; [left; exact E5 |].
    right. unfold flt in H.
    destruct (availableHours now exam <? 7) eqn:E7.
    { destruct (T (flt_not_ge _ _ (L7 E7))) as (_ & _ & E).
      rewrite E, flt_irrefl in H. discriminate H. }
    destruct (availableHours now exam <? 9) eqn:E9.
    { rewrite !andb_true_iff in C. destruct C as [[[_ A6] A8] B6].
      rewrite (adequate_sleep_both now exam hs c q A6 A8 B6) in H.
      discriminate H. }
    destruct (availableHours now exam <? 12) eqn:E12.
    { rewrite !andb_true_iff in C. destruct C as [[[[A9 A8] B6] B8] _].
      rewrite (optimal_against_adequate now exam hs c q A8 B6 B8) in H.
      repeat split; assumption. }
    rewrite !andb_true_iff in C. destruct C as [[[_ A8] B8] E3].
    rewrite (optimal_sleep_both now exam hs c q A8 B8 (feqb_eq _ _ E3)) in H.
    discriminate H.
  - intros [H | [[H9 H12] H]]; [left; exact H |]. right.
    rewrite (not_below _ 5 9 H9 eq_refl), (not_below _ 7 9 H9 eq_refl),
      (fle_not_gt _ _ H9) in C.
    unfold flt in H12. rewrite H12, !andb_true_iff in C.
    destruct C as [[[[_ A8] B6] B8] _].
    unfold flt.
    rewrite (optimal_against_adequate now exam hs c q A8 B6 B8). exact H.
Qed.

(** X16.  The engine recommends sleep in two bands of the available time
    only: below five hours, and from nine to less than twelve hours when
    the cram benefit of scenario 2 is below 10.  From five to less than
    nine hours the result is StrategicCram, and from twelve hours on it is
    StrategicCram with three hours of study, whatever the hours studied,
    the slider and the answers are. *)
Theorem sleep_bands (st : State) :
  wellFormed st = true ->
  exists now exam r,
    Runs st now exam r
    /\ (Result.decision r = sleep <->
        availableHours now exam < 5
        \/ (9 <= availableHours now exam < 12
            /\ cramBenefitS2 now exam (hoursStudied st) (confidence st)
                 (quizAnswers st) < 10))
    /\ (5 <= availableHours now exam -> availableHours now exam < 9 ->
        Result.decision r = strategic_cram)
    /\ (12 <= availableHours now exam ->
        Result.decision r = strategic_cram
        /\ Result.effectiveStudyHours r = 3).
Proof.
  intros WF.
  destruct (wellFormed_Runs st WF) as (now & exam & r & HR & Hn & He).
  exists now, exam, r. split; [exact HR |].
  destruct HR as (_ & _ & -> & _).
  set (hs := hoursStudied st). set (c := confidence st). set (q := quizAnswers st).
  cbn [resultObject Result.decision Result.effectiveStudyHours].
  rewrite decision_verdict.
  pose proof (forallClocks_In decisionBands _ _ decisionBands_checked Hn He) as C.
  unfold decisionBands in C. cbn zeta in C.
  pose proof (scenario1Wins_clock now exam hs c q Hn He) as S.
  pose proof (scenario1Wins_bands now exam hs c q Hn He) as W.
  split; [| split].
  - destruct (scenario1Wins now exam hs c q).
    + split; [intros _; apply W; reflexivity | reflexivity].
    + split; [discriminate |]. intros H. apply W in H. discriminate H.
  - intros H5 H9.
    destruct (scenario1Wins now exam hs c q); [| reflexivity].
    exfalso. destruct (proj1 W eq_refl) as [H | [[H _] _]].
    + unfold flt in H. rewrite (fle_not_gt _ _ H5) in H. discriminate H.
    + unfold flt in H9. rewrite (fle_not_gt _ _ H) in H9. discriminate H9.
  - intros H12.
    rewrite (not_below _ 5 12 H12 eq_refl), (not_below _ 7 12 H12 eq_refl),
      (not_below _ 9 12 H12 eq_refl), (fle_not_gt _ _ H12), !andb_true_iff in C.
    destruct C as [[[_ A8] B8] E3]. apply feqb_eq in E3.
    destruct (scenario1Wins now exam hs c q) eqn:Win.
    + exfalso. destruct (proj1 S eq_refl) as [H | H].
      * unfold flt in H. rewrite (not_below _ 5 12 H12 eq_refl) in H. discriminate H.
      * unfold flt in H.
        rewrite (optimal_sleep_both now exam hs c q A8 B8 E3) in H. discriminate H.
    + split; [reflexivity |]. rewrite E3. reflexivity.
Qed.

Lemma sleep_bands_witness :
  exists now exam r,
    Runs tiredNight now exam r
    /\ Result.decision r = sleep
    /\ 9 <= availableHours now exam < 12
    /\ cramBenefitS2 now exam 5 50 {| q1 := 33; q2 := 33; q3 := 0 |} < 10.
Proof.
  destruct (sleep_bands tiredNight eq_refl) as (now & exam & r & HR & H & _ & _).
  exists now, exam, r. split; [exact HR |].
  destruct HR as (Pn & Pe & Hr & _). parsed Pn. parsed Pe.
  assert (D : Result.decision r = sleep) by (rewrite Hr; vm_compute; reflexivity).
  split; [exact D |].
  destruct (proj1 H D) as [H5 | H9]; [discriminate H5 | exact H9].
Defined.

Lemma sleepPlanHours_checked : forallClocks sleepPlanHours = true.
Proof. vm_compute. reflexivity. Qed.

(** X17.  A Sleep result with five or more available hours prints a whole
    number of hours: its plan starts with "Sleep 8 hours minimum.", or 9 or
    10, and its science note quotes the same number and a boost of +25%;
    the projected boost is 25. *)
Theorem sleep_plan_text (st : State) :
  wellFormed st = true ->
  exists now exam r,
    Runs st now exam r
    /\ (Result.decision r = sleep -> 5 <= availableHours now exam ->
        Result.projectedBoost r = 25
        /\ exists n : string,
             In n ["8"; "9"; "10"]%string
             /\ Result.actionPlan r =
                [ "Sleep " ++ n ++ " hours minimum.";
                  "Limit screen time 30 mins before bed.";
                  "Light, focused review in the morning." ]%string
             /\ Result.scienceNote r =
                ("The consolidation benefit of " ++ n
                 ++ " hours of sleep (Boost: +25%) outweighs the minimal gain from more studying.")%string).
Proof.
  intros WF.
  destruct (wellFormed_Runs st WF) as (now & exam & r & HR & Hn & He).
  exists now, exam, r. split; [exact HR |].
  destruct HR as (_ & _ & -> & _).
  set (hs := hoursStudied st). set (c := confidence st). set (q := quizAnswers st).
  cbn [resultObject Result.decision Result.projectedBoost Result.actionPlan
       Result.scienceNote].
  rewrite decision_verdict, projectedBoost_verdict.
  destruct (scenario1Wins now exam hs c q) eqn:Win; [| discriminate].
  intros _ H5.
  destruct (proj1 (scenario1Wins_bands now exam hs c q Hn He) Win)
    as [H | [[H9 H12] _]].
  { unfold flt in H. rewrite (fle_not_gt _ _ H5) in H. discriminate H. }
  pose proof (forallClocks_In decisionBands _ _ decisionBands_checked Hn He) as C.
  unfold decisionBands in C. cbn zeta in C.
  rewrite (not_below _ 5 9 H9 eq_refl), (not_below _ 7 9 H9 eq_refl),
    (fle_not_gt _ _ H9) in C.
  unfold flt in H12. rewrite H12, !andb_true_iff in C.
  destruct C as [[[[_ A8] _] _] _].
  assert (B : getSleepBenefit (sleepHoursS1 now exam) = 25)
    by (unfold getSleepBenefit, optimalSleep; unfold fle in A8; rewrite A8; reflexivity).
  unfold verdict. rewrite Win, (fle_not_gt _ _ H5).
  cbn [actionPlan scienceNote]. unfold boostS1. rewrite B.
  split; [reflexivity |].
  pose proof (forallClocks_In sleepPlanHours _ _ sleepPlanHours_checked Hn He) as P.
  unfold sleepPlanHours in P. cbn zeta in P.
  unfold fle in H9. rewrite H9, H12 in P. cbn [andb negb orb] in P.
  rewrite !orb_true_iff in P. destruct P as [[P | P] | P];
    apply feqb_eq in P; rewrite P;
    [exists "8"%string | exists "9"%string | exists "10"%string];
    (split; [cbn [In]; auto |]); split; vm_compute; reflexivity.
Qed.

Lemma sleep_plan_text_witness :
  exists now exam r,
    Runs tiredNight now exam r
    /\ Result.projectedBoost r = 25
    /\ hd_error (Result.actionPlan r) = Some "Sleep 8 hours minimum."%string.
Proof.
  destruct (sleep_plan_text tiredNight eq_refl) as (now & exam & r & HR & H).
  exists now, exam, r. split; [exact HR |].
  destruct HR as (Pn & Pe & Hr & _). parsed Pn. parsed Pe.
  destruct H as (P & _); [rewrite Hr; vm_compute; reflexivity | reflexivity |].
  split; [exact P |]. rewrite Hr. vm_compute. reflexivity.
Defined.

(** ** The states the component can be in *)

Lemma isOption_isQuizAnswer (q : float) : isOption q -> isQuizAnswer q = true.
Proof. intros [[] ->]; reflexivity. Qed.

Lemma Invariant_initialState : Invariant initialState.
Proof.
  unfold Invariant. cbn.
  split; [repeat split; exists option0; reflexivity |].
  split; [reflexivity |].
  split; [left; reflexivity |].
  split; [split; [discriminate | intros H; contradiction H; reflexivity] |].
  discriminate.
Qed.

(** The screen shown tells the step, and whether a result is stored. *)
Lemma Invariant_screen (st : State) :
  Invariant st ->
  match screen st with
  | quizScreen => step st = "quiz"%string /\ result st = None
  | resultScreen => step st = "result"%string /\ exists r, result st = Some r
  | inputScreen => step st = "input"%string /\ result st = None
  end.
Proof.
  intros (_ & _ & S & [R1 R2] & _). unfold screen.
  destruct (result st) as [r |] eqn:R.
  - rewrite R2 by discriminate. cbn. split; [reflexivity | exists r; reflexivity].
  - assert (N : step st <> "result"%string)
      by (intros E; apply (R1 E); reflexivity).
    destruct S as [E | [E | E]]; [| | contradiction];
      rewrite E; cbn; split; reflexivity.
Qed.

(** The end of an invariant proof for a state with a known step and no
    result. *)
Ltac without_result :=
  split;
    [first [left; reflexivity | right; left; reflexivity | right; right; reflexivity] |];
  split; [split; [discriminate | intros N; contradiction N; reflexivity] |];
  discriminate.

Lemma handle_Invariant (e : Event) (st st' : State) :
  Invariant st -> handle e st = Some st' -> Invariant st'.
Proof.
  intros I H. pose proof (Invariant_screen st I) as Sc.
  destruct I as ((O1 & O2 & O3) & H0 & _).
  unfold handle in H.
  destruct (screen st); destruct Sc as [Es Er]; destruct e; try discriminate H.
  - (* an option of the quiz *)
    injection H as <-. unfold Invariant, onOptionClick, submitDisabled.
    destruct n; cbn; rewrite Er, Es;
      (split; [repeat split; try assumption; exists o; reflexivity |]);
      (split; [assumption |]); without_result.
  - (* back *)
    injection H as <-. unfold Invariant, submitDisabled. cbn. rewrite Er.
    split; [repeat split; assumption |]. split; [assumption |]. without_result.
  - (* submit *)
    destruct (submitDisabled st) eqn:D; [discriminate H |].
    unfold calculateRecommendation in H.
    destruct (parseTime (currentTime st)) as [now |] eqn:Pn; [| discriminate H].
    destruct (parseTime (examTime st)) as [exam |] eqn:Pe; [| discriminate H].
    injection H as <-. unfold Invariant. cbn.
    split; [repeat split; assumption |]. split; [assumption |].
    split; [right; right; reflexivity |].
    split; [split; [discriminate | reflexivity] |].
    intros r [= <-]. split; [exact D |].
    exists now, exam. repeat split; assumption.
  - (* new decision *)
    injection H as <-. unfold Invariant, submitDisabled. cbn.
    split; [repeat split; exists option0; reflexivity |]. split; [assumption |].
    without_result.
  - (* the current time *)
    injection H as <-. unfold Invariant, submitDisabled. cbn. rewrite Er, Es.
    split; [repeat split; assumption |]. split; [assumption |]. without_result.
  - (* the exam time *)
    injection H as <-. unfold Invariant, submitDisabled. cbn. rewrite Er, Es.
    split; [repeat split; assumption |]. split; [assumption |]. without_result.
  - (* the hours *)
    injection H as <-. unfold Invariant, submitDisabled.
    pose proof (hours_stored_nonnegative parsed) as P.
    cbn [onHoursChange setHoursStudied quizAnswers hoursStudied step result
         currentTime examTime confidence].
    rewrite Er, Es.
    split; [repeat split; assumption |]. split; [exact P |]. without_result.
  - (* the slider *)
    injection H as <-. unfold Invariant, submitDisabled. cbn. rewrite Er, Es.
    split; [repeat split; assumption |]. split; [assumption |]. without_result.
  - (* continue *)
    injection H as <-. unfold Invariant, submitDisabled. cbn. rewrite Er.
    split; [repeat split; assumption |]. split; [assumption |]. without_result.
Qed.

Lemma handleAll_Invariant (events : list Event) (st st' : State) :
  Invariant st -> handleAll events st = Some st' -> Invariant st'.
Proof.
  revert st. induction events as [| e events IH]; intros st I H; cbn in H.
  - injection H as <-. exact I.
  - destruct (handle e st) as [st1 |] eqn:E; [| discriminate H].
    exact (IH st1 (handle_Invariant e st st1 I E) H).
Qed.

Lemma Reachable_Invariant (st : State) : Reachable st -> Invariant st.
Proof.
  intros [events H]. exact (handleAll_Invariant events _ _ Invariant_initialState H).
Qed.

Lemma Reachable_firstResult : Reachable firstResult.
Proof. exists firstRun. vm_compute. reflexivity. Qed.





(** X20.  From every quiz screen the component can reach, with [HH:MM]
    times in the two time fields and some answer other than 0, the submit
    button leads to the result screen, and its result is the one
    [calculateRecommendation] computes.  With the slider within 0 and 100
    the state is in the documented domain of the engine: the hours field
    and the quiz options cannot leave it. *)
Theorem submit_shows_result (st : State) :
  Reachable st ->
  screen st = quizScreen ->
  isHHMM (currentTime st) = true -> isHHMM (examTime st) = true ->
  submitDisabled st = false ->
  (exists now exam r,
     Runs st now exam r
     /\ handle submitQuiz st = Some (setStep "result" (setResult (Some r) st))
     /\ screen (setStep "result" (setResult (Some r) st)) = resultScreen)
  /\ (0 <= confidence st <= 100 -> wellFormed st = true).
Proof.
  intros Re Sc Hc He D. pose proof (Reachable_Invariant st Re) as I.
  destruct I as ((O1 & O2 & O3) & H0 & _).
  split.
  - destruct (parseTime_HHMM _ Hc) as (h & m & _ & _ & Pn).
    destruct (parseTime_HHMM _ He) as (h' & m' & _ & _ & Pe).
    exists (clock h m), (clock h' m'). eexists.
    assert (Run : calculateRecommendation st =
                  Some (setStep "result"
                          (setResult
                             (Some (resultObject (clock h m) (clock h' m')
                                      (hoursStudied st) (confidence st)
                                      (quizAnswers st))) st)))
      by (unfold calculateRecommendation; rewrite Pn, Pe; reflexivity).
    split; [unfold Runs; repeat split; [exact Pn | exact Pe | exact Run] |].
    split; [unfold handle; rewrite Sc, D; exact Run | reflexivity].
  - intros [C0 C100]. unfold wellFormed.
    rewrite Hc, He, (isOption_isQuizAnswer _ O1), (isOption_isQuizAnswer _ O2),
      (isOption_isQuizAnswer _ O3).
    unfold fle in *. rewrite H0, C0, C100. reflexivity.
Qed.

Lemma submit_shows_result_witness :
  exists st, handle submitQuiz (onOptionClick question1 option33 (setStep "quiz" initialState))
             = Some st /\ screen st = resultScreen.
Proof.
  destruct (submit_shows_result
              (onOptionClick question1 option33 (setStep "quiz" initialState)))
    as [(now & exam & r & _ & H & S) _].
  - exists [continueToQuiz; clickOption question1 option33]. reflexivity.
  - reflexivity.
  - reflexivity.
  - reflexivity.
  - reflexivity.
  - eexists. split; [exact H | exact S].
Defined.



(** X22.  Back keeps the answers chosen so far: going back from the quiz
    to the input screen and continuing again leads to the same state.  New
    Decision, by contrast, clears them. *)
Theorem back_keeps_answers (st : State) :
  screen st = quizScreen ->
  handleAll [backToInput; continueToQuiz] st = Some st
  /\ quizAnswers (setStep "input" st) = quizAnswers st
  /\ screen (setStep "input" st) = inputScreen.
Proof.
  intros Sc.
  assert (Es : step st = "quiz"%string).
  { unfold screen in Sc. destruct (String.eqb (step st) "quiz") eqn:E.
    - apply String.eqb_eq. exact E.
    - destruct (_ && _); discriminate Sc. }
  split; [| split; reflexivity].
  cbn [handleAll]. unfold handle at 1. rewrite Sc.
  destruct st. cbn in *. subst. reflexivity.
Qed.

Lemma back_keeps_answers_witness :
  handleAll [backToInput; continueToQuiz]
    (onOptionClick question1 option67 (setStep "quiz" initialState))
  = Some (onOptionClick question1 option67 (setStep "quiz" initialState)).
Proof.
  apply (back_keeps_answers
           (onOptionClick question1 option67 (setStep "quiz" initialState))).
  reflexivity.
Defined.

(** ** Clock times with seconds *)

Lemma split_nonempty (sep : ascii) (s : string) : split sep s <> [].
Proof.
  destruct s as [| c rest]; cbn [split]; [discriminate |].
  destruct (Ascii.eqb c sep); [discriminate |].
  destruct (split sep rest); discriminate.
Qed.

(** Splitting distributes over a separator. *)
Lemma split_append (sep : ascii) (s rest : string) :
  split sep (s ++ String sep rest) = (split sep s ++ split sep rest)%list.
Proof.
  induction s as [| c s IH]; cbn [append split app].
  - rewrite Ascii.eqb_refl. reflexivity.
  - destruct (Ascii.eqb c sep); [rewrite IH; reflexivity |].
    rewrite IH. pose proof (split_nonempty sep s) as N.
    destruct (split sep s) as [| piece pieces]; [contradiction |]. reflexivity.
Qed.

(** X23.  [parseTime] reads the first two fields of its argument and
    nothing else: a time with seconds, or with anything else after a second
    colon, parses to the same number as its hours and minutes alone. *)
Theorem parseTime_ignores_seconds (hours minutes rest : string) :
  parseTime (hours ++ ":" ++ minutes ++ ":" ++ rest)
  = parseTime (hours ++ ":" ++ minutes).
Proof.
  unfold parseTime.
  change (hours ++ ":" ++ minutes ++ ":" ++ rest)%string
    with (hours ++ String ":" (minutes ++ String ":" rest))%string.
  change (hours ++ ":" ++ minutes)%string
    with (hours ++ String ":" minutes)%string.
  rewrite !split_append, !map_app.
  pose proof (split_nonempty ":" hours) as Nh.
  pose proof (split_nonempty ":" minutes) as Nm.
  destruct (split ":" hours) as [| h hs]; [contradiction |].
  destruct (split ":" minutes) as [| m ms]; [contradiction |].
  destruct hs as [| h' hs]; cbn [map app]; reflexivity.
Qed.

(** ** The look-up functions of the result screen *)

(** X24.  For the two decisions the engine produces, the three look-up
    functions of the result screen never take their last branch: the title
    is never "Cram Time", the icon never the open book and the color never
    the blue fallback; and the two decisions differ in all three. *)
Theorem decision_lookups (d : Decision) :
  (getDecisionTitle (decisionTag d)
   = match d with
     | sleep => "Sleep Now"
     | strategic_cram => "Strategic Study + Sleep"
     end%string
   /\ getDecisionIcon (decisionTag d)
      = match d with sleep => Moon | strategic_cram => Brain end
   /\ getDecisionColor (decisionTag d)
      = match d with
        | sleep => "bg-gradient-to-br from-teal-600 to-emerald-700"
        | strategic_cram => "bg-gradient-to-br from-blue-600 to-cyan-700"
        end%string)
  /\ (forall d', getDecisionTitle (decisionTag d) = getDecisionTitle (decisionTag d')
                 \/ getDecisionIcon (decisionTag d) = getDecisionIcon (decisionTag d')
                 \/ getDecisionColor (decisionTag d) = getDecisionColor (decisionTag d')
                 -> d = d').
Proof.
  split; [destruct d; repeat split; reflexivity |].
  intros d' H. destruct d, d'; try reflexivity;
    destruct H as [H | [H | H]]; discriminate H.
Qed.

(** ** The comparison panel of the result screen *)

(** The comparison of line 113 orders the rounded boosts as it orders the
    boosts. *)
Lemma rounded_boosts_ordered (now exam hs c : float) (q : QuizAnswers) :
  let b1 := boostS1 now exam in
  let b2 := boostS2 now exam hs c q in
  ((b1 >? b2) = true -> Math_round b2 <= Math_round b1)
  /\ ((b1 >? b2) = false -> Math_round b1 <= Math_round b2).
Proof.
  unfold boostS1, boostS2, cramBenefitS2, sleepBenefitS2, getSleepBenefit,
    getCramBenefit, cognitiveStateFactor, fatigueFactor, timeFactor, fle.
  generalize (sleepHoursS1 now exam) (sleepHoursS2 now exam) (studyHoursS2 now exam).
  generalize (lowConfidence c q) (highConfidence c q) (isLateNight now).
  intros low high late s1 s2 h. cbn zeta.
  split_ifs; vm_compute;
    (split; intros H; first [discriminate H | reflexivity]).
Qed.

(** X25.  The numbers of the comparison panel are consistent: the study
    benefit and the sleep benefit shown for the strategic split add up to
    its total, the sleep benefit of the max-sleep plan is its total, the
    headline projected boost is the total of the chosen plan clamped at 0,
    and the total of the alternative never exceeds that of the chosen
    plan. *)
Theorem comparison_panel (st : State) :
  wellFormed st = true ->
  exists now exam r,
    Runs st now exam r
    /\ Result.cramBenefitS2 r + Result.sleepBenefitS2 r = Result.boostS2 r
    /\ Result.sleepBenefitS1 r = Result.boostS1 r
    /\ Result.projectedBoost r = Math_max 0 (chosenTotal r)
    /\ alternativeTotal r <= chosenTotal r.
Proof.
  intros WF.
  destruct (wellFormed_Runs st WF) as (now & exam & r & HR & Hn & He).
  exists now, exam, r. split; [exact HR |].
  destruct HR as (_ & _ & -> & _).
  set (hs := hoursStudied st). set (c := confidence st). set (q := quizAnswers st).
  unfold chosenTotal, alternativeTotal.
  cbn [resultObject Result.decision Result.projectedBoost Result.boostS1
       Result.boostS2 Result.cramBenefitS2 Result.sleepBenefitS2
       Result.sleepBenefitS1].
  rewrite decision_verdict, projectedBoost_verdict.
  split; [| split; [reflexivity |]; split].
  - unfold boostS2, cramBenefitS2, sleepBenefitS2, getSleepBenefit,
      getCramBenefit, cognitiveStateFactor, fatigueFactor, timeFactor.
    generalize (sleepHoursS2 now exam) (studyHoursS2 now exam).
    generalize (lowConfidence c q) (highConfidence c q) (isLateNight now).
    intros low high late s h. cbn zeta.
    split_ifs; reflexivity.
  - generalize (scenario1Wins now exam hs c q). intros wins.
    unfold boostS1, boostS2, cramBenefitS2, sleepBenefitS2, getSleepBenefit,
      getCramBenefit, cognitiveStateFactor, fatigueFactor, timeFactor.
    generalize (sleepHoursS1 now exam) (sleepHoursS2 now exam) (studyHoursS2 now exam).
    generalize (lowConfidence c q) (highConfidence c q) (isLateNight now).
    intros low high late s1 s2 h. cbn zeta.
    destruct wins; split_ifs; reflexivity.
  - pose proof (rounded_boosts_ordered now exam hs c q) as [Rt Rf]. cbn zeta in *.
    pose proof (scenario1Wins_clock now exam hs c q Hn He) as S.
    destruct (sleepHoursS1_by_availableHours now exam Hn He) as (L4 & _ & _).
    pose proof (scenarios_tie_below_six now exam hs c q Hn He) as T.
    destruct (scenario1Wins now exam hs c q) eqn:W.
    + destruct (proj1 S eq_refl) as [W' | W'].
      * destruct (T (below_not_ge _ 4 6 (L4 W') eq_refl)) as (_ & _ & E).
        rewrite E in *. apply Rf, flt_irrefl.
      * apply Rt, W'.
    + destruct (boostS1 now exam >? boostS2 now exam hs c q) eqn:E;
        [| apply Rf; reflexivity].
      discriminate (proj2 S (or_intror E)).
Qed.

Lemma comparison_panel_witness :
  exists now exam r,
    Runs tiredNight now exam r
    /\ Result.cramBenefitS2 r = 6 /\ Result.sleepBenefitS2 r = 15
    /\ Result.boostS2 r = 21
    /\ Result.cramBenefitS2 r + Result.sleepBenefitS2 r = Result.boostS2 r.
Proof.
  destruct (comparison_panel tiredNight eq_refl) as (now & exam & r & HR & H & _).
  exists now, exam, r. split; [exact HR |].
  destruct HR as (Pn & Pe & Hr & _). parsed Pn. parsed Pe.
  split; [rewrite Hr; vm_compute; reflexivity |].
  split; [rewrite Hr; vm_compute; reflexivity |].
  split; [rewrite Hr; vm_compute; reflexivity | exact H].
Defined.
